(** * Sign-language recogniser: classification, hold confirmation, transcript

    A shallow embedding of [hand_tracking_app.py].

    - Python floats are IEEE-754 binary64 numbers: they are modelled by the
      primitive floats of the kernel ([PrimFloat]), whose operations are
      specified by [FloatAxioms] against [SpecFloat].
    - [x ** 2] is CPython's [float_pow]: it settles NaN, the infinities,
      zero and one itself and hands every other base to [pow] of the C
      library, raising [OverflowError] when that overflows.  The value and
      the [errno] of [pow(x, 2.0)] are a parameter of the development, and so
      is [math.atan2] (only the rule for the letter L reads it).
    - [math.sqrt] is the correctly rounded square root; it raises
      [ValueError] outside its domain.
    - [landmarks[i]] raises [IndexError] on a short sequence, a float division
      raises [ZeroDivisionError] on a zero divisor, [int(f)] raises on an
      infinity or a NaN: functions that can raise live in a small exception
      monad.
    - [time.time()] and the width of the camera frame are inputs: every
      function that reads them takes the reading as an argument.
    - [draw_landmarks] of MediaPipe receives every hand before recognition
      and may raise: it is a parameter.  The other Tk and OpenCV calls only
      write to the widgets and to the frame, which the program does not read
      back; they are taken to return and are left out. *)

From Stdlib Require Import ZArith List String Bool Lia Floats.
Import ListNotations.

Set Warnings "-inexact-float".

(** ** Exceptions *)

Inductive exception : Type :=
| IndexError
| ZeroDivisionError
| OverflowError
| ValueError.

Inductive exc (A : Type) : Type :=
| Ok (a : A)
| Raise (e : exception).
Arguments Ok {A} a.
Arguments Raise {A} e.

Definition bind {A B : Type} (m : exc A) (k : A -> exc B) : exc B :=
  match m with
  | Ok a => k a
  | Raise e => Raise e
  end.

Declare Scope exc_scope.
Delimit Scope exc_scope with exc.
Notation "v <- m ;; k" := (bind m (fun v => k))
  (at level 61, m at next level, right associativity) : exc_scope.

(** ** Python values used by the program *)

(** [a == b] on lists of ints. *)
Fixpoint list_eqb (a b : list Z) : bool :=
  match a, b with
  | [], [] => true
  | u :: a', v :: b' => Z.eqb u v && list_eqb a' b'
  | _, _ => false
  end.

(** [sum(l)]: left to right from 0. *)
Definition sum (l : list Z) : Z := fold_left Z.add l 0%Z.

(** [a == b] on values that are a [str] or [None]. *)
Definition sign_eqb (a b : option string) : bool :=
  match a, b with
  | None, None => true
  | Some s, Some t => String.eqb s t
  | _, _ => false
  end.

(** Truth value of a [str]-or-[None]: [None] and the empty string are false. *)
Definition truthy (s : option string) : bool :=
  match s with
  | None => false
  | Some EmptyString => false
  | Some _ => true
  end.

(** A binary64 number that carries no minus sign (a NaN has none). *)
Definition unsigned (f : spec_float) : bool :=
  match f with
  | S754_nan => true
  | S754_zero s | S754_infinity s | S754_finite s _ _ => negb s
  end.

(** What a function of the C library leaves in [errno]. *)
Inductive errno : Type :=
| ENONE
| ERANGE
| EOTHER.

(** [x ** 2] on a float ([float_pow] of CPython with the exponent 2.0).
    [libm_pow2 v] is the value and the [errno] of [pow(v, 2.0)]; it is only
    asked for a base that is finite, positive and not 1.  An infinite value
    is a range error, a range error on a zero value is dropped, and any
    [errno] that is left raises. *)
Definition float_pow2 (libm_pow2 : float -> float * errno) (iv : float)
  : exc float :=
  if is_nan iv then Ok iv
  else if is_infinity iv then Ok (abs iv)
  else if PrimFloat.eqb iv 0 then Ok 0%float
  else
    let iv := if PrimFloat.ltb iv 0 then (- iv)%float else iv in
    if PrimFloat.eqb iv 1 then Ok 1%float
    else
      let (ix, e) := libm_pow2 iv in
      let e :=
        match e with
        | ENONE => if is_infinity ix then ERANGE else ENONE
        | ERANGE => if PrimFloat.eqb ix 0 then ENONE else ERANGE
        | EOTHER => EOTHER
        end in
      match e with
      | ENONE => Ok ix
      | ERANGE => Raise OverflowError
      | EOTHER => Raise ValueError
      end.

(** [math.sqrt(x)]: a NaN out of a number, or an infinity out of a finite
    number, is a domain error. *)
Definition math_sqrt (x : float) : exc float :=
  let r := sqrt x in
  if is_nan r && negb (is_nan x) then Raise ValueError
  else if is_infinity r && is_finite x then Raise ValueError
  else Ok r.

(** [float(n)] for an int, as in [n * f]: correctly rounded, and an
    [OverflowError] when [n] is beyond the floats. *)
Definition float_of_int (n : Z) : exc float :=
  let f := SF2Prim (binary_normalize prec emax n 0%Z false) in
  if is_infinity f then Raise OverflowError else Ok f.

(** [int(f)]: the float cut towards zero. *)
Definition py_int (f : float) : exc Z :=
  match Prim2SF f with
  | S754_nan => Raise ValueError
  | S754_infinity _ => Raise OverflowError
  | S754_zero _ => Ok 0%Z
  | S754_finite s m e =>
      Ok (cond_Zopp s
            (if (0 <=? e)%Z then (Z.pos m * 2 ^ e)%Z
             else (Z.pos m / 2 ^ (- e))%Z))
  end.

(** [a / b] on floats: a zero divisor, of either sign, raises. *)
Definition py_div (a b : float) : exc float :=
  if PrimFloat.eqb b 0 then Raise ZeroDivisionError else Ok (a / b)%float.

(** [min(a, b)]: the first argument unless the second is strictly smaller. *)
Definition py_min (a b : float) : float :=
  if PrimFloat.ltb b a then b else a.

(** [s[:-1]] *)
Fixpoint drop_last (s : string) : string :=
  match s with
  | EmptyString => EmptyString
  | String _ EmptyString => EmptyString
  | String c rest => String c (drop_last rest)
  end.

(** [collections.deque(maxlen=n)]: [append] pushes on the right and, when the
    length then exceeds [maxlen], pops one item on the left. *)
Module Deque.

Definition append (maxlen : nat) (d : list string) (v : string) : list string :=
  let d' := d ++ [v] in
  if Nat.ltb maxlen (List.length d') then tl d' else d'.

Definition clear (d : list string) : list string := [].

End Deque.

(** ** class SignLanguageRecognizer *)

Module SignLanguageRecognizer.

Local Open Scope float_scope.

(** One landmark of the hand-pose estimator. *)
Record Landmark : Type := mkLandmark { x : float; y : float; z : float }.

Record t : Type := mk
  { last_sign_time : float;
    last_sign : option string;
    cooldown : float;
    confidence_threshold : float }.

(** [__init__] *)
Definition init : t :=
  {| last_sign_time := 0;
     last_sign := None;
     cooldown := 1.5;
     confidence_threshold := 0.8 |}.

(** [landmarks[i]] *)
Definition item (landmarks : list Landmark) (i : nat) : exc Landmark :=
  match nth_error landmarks i with
  | Some p => Ok p
  | None => Raise IndexError
  end.

Definition finger_tips : list nat := [8; 12; 16; 20]%nat.
Definition finger_pips : list nat := [6; 10; 14; 18]%nat.

(** The [for tip, pip in zip(...)] loop of [get_finger_status]. *)
Fixpoint finger_loop (landmarks : list Landmark) (pairs : list (nat * nat))
         (fingers : list Z) : exc (list Z) :=
  match pairs with
  | [] => Ok fingers
  | (tip, pip) :: rest =>
      (pt <- item landmarks tip ;;
       pp <- item landmarks pip ;;
       finger_loop landmarks rest
         (fingers ++ [if y pt <? y pp then 1%Z else 0%Z]))%exc
  end.

Definition get_finger_status (landmarks : list Landmark) : exc (list Z) :=
  (p4 <- item landmarks 4 ;;
   p3 <- item landmarks 3 ;;
   let fingers := if x p4 <? x p3 then [1%Z] else [0%Z] in
   finger_loop landmarks (combine finger_tips finger_pips) fingers)%exc.


(** Conditions of the rules C, O, U and V, on the finger list and the
    distance that the rule reads ([thumb_index_dist] for C and O,
    [index_middle_dist] for U and V). *)
Definition is_C (fingers : list Z) (d : float) : bool :=
  (3 <=? sum fingers)%Z && (0.1 <? d) && (d <? 0.25).

Definition is_O (fingers : list Z) (d : float) : bool :=
  (3 <=? sum fingers)%Z && (d <? 0.08).

Definition is_U (fingers : list Z) (d : float) : bool :=
  list_eqb fingers [0; 1; 1; 0; 0]%Z && (d <? 0.05).

Definition is_V (fingers : list Z) (d : float) : bool :=
  list_eqb fingers [0; 1; 1; 0; 0]%Z && (0.08 <? d).

(** [if c: return sign], then the rest of the function. *)
Definition rule (c : exc bool) (sign : string)
           (rest : exc (option string)) : exc (option string) :=
  (b <- c ;; if b then Ok (Some sign) else rest)%exc.

(** [a and b], where [b] may index the landmarks. *)
Definition and_then (a : bool) (b : exc bool) : exc bool :=
  if a then b else Ok false.

(** [math.pi] *)
Definition pi : float := 0x1.921fb54442d18p+1.

Section Libm.

(** [pow(v, 2.0)] of the C library: its value and its [errno]. *)
Variable libm_pow2 : float -> float * errno.

(** [math.atan2] *)
Variable atan2 : float -> float -> float.

Definition get_distance (p1 p2 : Landmark) : exc float :=
  (dx <- float_pow2 libm_pow2 (x p1 - x p2) ;;
   dy <- float_pow2 libm_pow2 (y p1 - y p2) ;;
   dz <- float_pow2 libm_pow2 (z p1 - z p2) ;;
   math_sqrt (dx + dy + dz))%exc.

(** The three distances that [recognize_sign] computes before the rules. *)
Definition thumb_index_dist (landmarks : list Landmark) : exc float :=
  (p4 <- item landmarks 4 ;; p8 <- item landmarks 8 ;;
   get_distance p4 p8)%exc.

Definition thumb_middle_dist (landmarks : list Landmark) : exc float :=
  (p4 <- item landmarks 4 ;; p12 <- item landmarks 12 ;;
   get_distance p4 p12)%exc.

Definition index_middle_dist (landmarks : list Landmark) : exc float :=
  (p8 <- item landmarks 8 ;; p12 <- item landmarks 12 ;;
   get_distance p8 p12)%exc.

Definition get_angle (p1 p2 p3 : Landmark) : float :=
  let radians := atan2 (y p3 - y p2) (x p3 - x p2)
                 - atan2 (y p1 - y p2) (x p1 - x p2) in
  let angle := abs (radians * 180 / pi) in
  if 180 <? angle then 360 - angle else angle.

Definition recognize_sign (landmarks : list Landmark) : exc (option string) :=
  (fingers <- get_finger_status landmarks ;;
   thumb_index_dist <- thumb_index_dist landmarks ;;
   thumb_middle_dist <- thumb_middle_dist landmarks ;;
   index_middle_dist <- index_middle_dist landmarks ;;
   p0 <- item landmarks 0 ;; p5 <- item landmarks 5 ;;
   p9 <- item landmarks 9 ;; p13 <- item landmarks 13 ;;
   p17 <- item landmarks 17 ;;
   let palm_x := (x p0 + x p5 + x p9 + x p13 + x p17) / 5 in
   p0 <- item landmarks 0 ;; p5 <- item landmarks 5 ;;
   p9 <- item landmarks 9 ;; p13 <- item landmarks 13 ;;
   p17 <- item landmarks 17 ;;
   let palm_y := (y p0 + y p5 + y p9 + y p13 + y p17) / 5 in
   rule (and_then (list_eqb fingers [1; 0; 0; 0; 0]%Z)
           (p4 <- item landmarks 4 ;; p8 <- item landmarks 8 ;;
            Ok (y p8 <? y p4))) "A"
  (rule (Ok (list_eqb fingers [0; 1; 1; 1; 1]%Z)) "B"
  (rule (Ok (is_C fingers thumb_index_dist)) "C"
  (rule (Ok (list_eqb fingers [1; 1; 0; 0; 0]%Z
             && (thumb_middle_dist <? 0.08))) "D"
  (rule (Ok (sum fingers =? 0)%Z) "E"
  (rule (Ok (list_eqb fingers [1; 1; 1; 1; 1]%Z
             && (thumb_index_dist <? 0.08))) "F"
  (rule (Ok (list_eqb fingers [0; 0; 0; 0; 1]%Z)) "I"
  (rule (Ok (list_eqb fingers [1; 1; 1; 0; 0]%Z
             && (0.08 <? index_middle_dist))) "K"
  (rule (and_then (list_eqb fingers [1; 1; 0; 0; 0]%Z
                   && (0.15 <? thumb_index_dist))
           (p4 <- item landmarks 4 ;; p5 <- item landmarks 5 ;;
            p8 <- item landmarks 8 ;;
            let angle := get_angle p4 p5 p8 in
            Ok ((70 <? angle) && (angle <? 110)))) "L"
  (rule (Ok (is_O fingers thumb_index_dist)) "O"
  (rule (Ok (is_U fingers index_middle_dist)) "U"
  (rule (Ok (is_V fingers index_middle_dist)) "V"
  (rule (Ok (list_eqb fingers [0; 1; 1; 1; 0]%Z)) "W"
  (rule (Ok (list_eqb fingers [1; 0; 0; 0; 1]%Z)) "Y"
  (rule (Ok (sum fingers =? 5)%Z) "HELLO"
  (rule (and_then (list_eqb fingers [1; 1; 1; 1; 1]%Z)
           (p8 <- item landmarks 8 ;; p0 <- item landmarks 0 ;;
            Ok (y p8 <? y p0))) "THANKS"
  (rule (Ok (list_eqb fingers [1; 1; 1; 1; 1]%Z)) "PLEASE"
  (rule (and_then (sum fingers =? 0)%Z
           (p8 <- item landmarks 8 ;; p0 <- item landmarks 0 ;;
            Ok (y p8 <? y p0))) "YES"
  (rule (and_then (list_eqb fingers [1; 0; 0; 0; 0]%Z)
           (p4 <- item landmarks 4 ;; p8 <- item landmarks 8 ;;
            Ok (y p4 <? y p8))) "GOOD"
  (rule (Ok (list_eqb fingers [1; 1; 0; 0; 0]%Z)) "HELP"
  (Ok None)))))))))))))))))))))%exc.

(** The conditions of rule 3 (C) and rule 10 (O) on a landmark sequence. *)
Definition matches_C (landmarks : list Landmark) : exc bool :=
  (fingers <- get_finger_status landmarks ;;
   d <- thumb_index_dist landmarks ;;
   Ok (is_C fingers d))%exc.

Definition matches_O (landmarks : list Landmark) : exc bool :=
  (fingers <- get_finger_status landmarks ;;
   d <- thumb_index_dist landmarks ;;
   Ok (is_O fingers d))%exc.

End Libm.

(** [is_sign_ready]; [current_time] is the reading of [time.time()]. *)
Definition is_sign_ready (self : t) (sign : option string)
           (current_time : float) : bool * t :=
  if negb (sign_eqb sign (last_sign self)) then
    (false,
     {| last_sign_time := current_time;
        last_sign := sign;
        cooldown := cooldown self;
        confidence_threshold := confidence_threshold self |})
  else if cooldown self <=? current_time - last_sign_time self then
    (true,
     {| last_sign_time := current_time;
        last_sign := last_sign self;
        cooldown := cooldown self;
        confidence_threshold := confidence_threshold self |})
  else (false, self).

(** A run of calls of [is_sign_ready], in order; the answers are collected. *)
Fixpoint observe_all (self : t) (calls : list (option string * float))
  : list bool * t :=
  match calls with
  | [] => ([], self)
  | (sign, now) :: rest =>
      let (r, self1) := is_sign_ready self sign now in
      let (rs, self2) := observe_all self1 rest in
      (r :: rs, self2)
  end.

End SignLanguageRecognizer.

(** ** class SignLanguageTranslator *)

Module SignLanguageTranslator.

Local Open Scope float_scope.

Record t : Type := mk
  { running : bool;
    enabled : bool;
    recognizer : SignLanguageRecognizer.t;
    current_text : string;
    word_buffer : string;
    current_sign : option string;
    hold_progress : float;
    total_signs : Z;
    sign_history : list string }.

(** Capacity of the history deque, [deque(maxlen=10)]. *)
Definition history_maxlen : nat := 10.

(** [__init__] *)
Definition init : t :=
  {| running := false;
     enabled := false;
     recognizer := SignLanguageRecognizer.init;
     current_text := "";
     word_buffer := "";
     current_sign := None;
     hold_progress := 0;
     total_signs := 0;
     sign_history := [] |}.

Definition set_enabled (b : bool) (self : t) : t :=
  mk (running self) b (recognizer self) (current_text self)
     (word_buffer self) (current_sign self) (hold_progress self)
     (total_signs self) (sign_history self).

Definition set_recognizer (r : SignLanguageRecognizer.t) (self : t) : t :=
  mk (running self) (enabled self) r (current_text self)
     (word_buffer self) (current_sign self) (hold_progress self)
     (total_signs self) (sign_history self).

Definition set_current_text (s : string) (self : t) : t :=
  mk (running self) (enabled self) (recognizer self) s
     (word_buffer self) (current_sign self) (hold_progress self)
     (total_signs self) (sign_history self).

Definition set_current_sign (s : option string) (self : t) : t :=
  mk (running self) (enabled self) (recognizer self) (current_text self)
     (word_buffer self) s (hold_progress self)
     (total_signs self) (sign_history self).

Definition set_hold_progress (p : float) (self : t) : t :=
  mk (running self) (enabled self) (recognizer self) (current_text self)
     (word_buffer self) (current_sign self) p
     (total_signs self) (sign_history self).

Definition set_total_signs (n : Z) (self : t) : t :=
  mk (running self) (enabled self) (recognizer self) (current_text self)
     (word_buffer self) (current_sign self) (hold_progress self)
     n (sign_history self).

Definition set_sign_history (h : list string) (self : t) : t :=
  mk (running self) (enabled self) (recognizer self) (current_text self)
     (word_buffer self) (current_sign self) (hold_progress self)
     (total_signs self) h.

Definition toggle_recognition (self : t) : t :=
  set_enabled (negb (enabled self)) self.

(** *** Text management *)

Definition add_sign (self : t) (sign : string) : t :=
  let self := set_current_text (current_text self ++ sign) self in
  let self :=
    set_sign_history (Deque.append history_maxlen (sign_history self) sign) self in
  set_total_signs (total_signs self + 1) self.

Definition add_space (self : t) : t :=
  set_current_text (current_text self ++ " ") self.

Definition backspace (self : t) : t :=
  match current_text self with
  | EmptyString => self
  | _ => set_current_text (drop_last (current_text self)) self
  end.

(** [clear_text]; [answer] is what the [askyesno] dialog returns. *)
Definition clear_text (self : t) (answer : bool) : t :=
  if answer then
    let self := set_current_text "" self in
    let self := set_total_signs 0 self in
    set_sign_history (Deque.clear (sign_history self)) self
  else self.

(** *** Main loop *)

(** One hand of a frame: its landmarks, the width [w] of the frame, and the
    two readings of the clock taken while it is processed (the one of
    [update_frame] for the progress bar, then the one of [is_sign_ready]). *)
Record hand : Type := mkHand
  { landmark : list SignLanguageRecognizer.Landmark;
    frame_width : Z;
    progress_time : float;
    ready_time : float }.

Section MainLoop.

Variable libm_pow2 : float -> float * errno.
Variable atan2 : float -> float -> float.

(** [self.mp_draw.draw_landmarks(frame, hand_landmarks, ...)] *)
Variable draw_landmarks : list SignLanguageRecognizer.Landmark -> exc unit.

(** The block [if self.enabled:] of the loop over the hands. *)
Definition process_hand (self : t) (h : hand) : exc t :=
  if enabled self then
    (sign <- SignLanguageRecognizer.recognize_sign libm_pow2 atan2
               (landmark h) ;;
     match sign with
     | Some s =>
         if truthy sign then
           let self := set_current_sign sign self in
           let r := recognizer self in
           self <-
             (if sign_eqb sign (SignLanguageRecognizer.last_sign r) then
                let hold_time :=
                  progress_time h - SignLanguageRecognizer.last_sign_time r in
                q <- py_div hold_time (SignLanguageRecognizer.cooldown r) ;;
                Ok (set_hold_progress (py_min 100 (q * 100)) self)
              else Ok (set_hold_progress 0 self)) ;;
           width <- float_of_int (frame_width h - 100) ;;
           bar_width <- py_int (width * (hold_progress self / 100)) ;;
           let (ready, r') :=
             SignLanguageRecognizer.is_sign_ready r sign (ready_time h) in
           let self := set_recognizer r' self in
           Ok (if ready then add_sign self s else self)
         else Ok (set_current_sign None self)
     | None => Ok (set_current_sign None self)
     end)%exc
  else Ok self.

(** Body of [for hand_landmarks in results.multi_hand_landmarks]: the hand
    is drawn, then recognised. *)
Definition hand_iteration (self : t) (h : hand) : exc t :=
  (_ <- draw_landmarks (landmark h) ;; process_hand self h)%exc.

Fixpoint for_hands (self : t) (hands : list hand) : exc t :=
  match hands with
  | [] => Ok self
  | h :: rest => (self' <- hand_iteration self h ;; for_hands self' rest)%exc
  end.

(** The part of one iteration of [update_frame] that touches the session
    state; [hands] is [results.multi_hand_landmarks] ([None] is []). *)
Definition update_frame_step (self : t) (hands : list hand) : exc t :=
  match hands with
  | [] => Ok (if enabled self then set_current_sign None self else self)
  | _ => for_hands self hands
  end.

(** Successive iterations of the loop. *)
Fixpoint update_frames (self : t) (frames : list (list hand)) : exc t :=
  match frames with
  | [] => Ok self
  | f :: rest =>
      (self' <- update_frame_step self f ;; update_frames self' rest)%exc
  end.

End MainLoop.

(** The invariant of [deque(maxlen=10)]: at most 10 entries. *)
Definition history_bounded (self : t) : Prop :=
  (List.length (sign_history self) <= history_maxlen)%nat.

End SignLanguageTranslator.

(** ** Landmark sequences and frames used in examples *)

Module Fixtures.

Import SignLanguageRecognizer.
Local Open Scope float_scope.

(** Every joint sits at the centre of the frame; a pose is given by its five
    fingertips (indices 4, 8, 12, 16, 20).  The thumb is extended when its
    tip is left of 0.5, another finger when its tip is above 0.5. *)
Definition joint : Landmark := mkLandmark 0.5 0.5 0.

Definition pose (p4 p8 p12 p16 p20 : Landmark) : list Landmark :=
  [joint; joint; joint; joint; p4; joint; joint; joint; p8;
   joint; joint; joint; p12; joint; joint; joint; p16;
   joint; joint; joint; p20].

(** Fist, thumb on the side and below the index tip: fingers [1,0,0,0,0]. *)
Definition fist_thumb_side : list Landmark :=
  pose (mkLandmark 0.4 0.6 0) (mkLandmark 0.5 0.55 0) (mkLandmark 0.5 0.55 0)
       (mkLandmark 0.5 0.55 0) (mkLandmark 0.5 0.55 0).

(** Four fingers up, thumb tucked: fingers [0,1,1,1,1]. *)
Definition flat_hand : list Landmark :=
  pose (mkLandmark 0.55 0.5 0) (mkLandmark 0.45 0.3 0) (mkLandmark 0.5 0.3 0)
       (mkLandmark 0.55 0.3 0) (mkLandmark 0.6 0.3 0).

(** Closed fist: no finger extended. *)
Definition fist : list Landmark :=
  pose (mkLandmark 0.6 0.5 0) (mkLandmark 0.5 0.6 0) (mkLandmark 0.5 0.6 0)
       (mkLandmark 0.5 0.6 0) (mkLandmark 0.5 0.6 0).

(** Closed fist whose index tip is above the wrist. *)
Definition fist_index_above_wrist : list Landmark :=
  mkLandmark 0.5 0.9 0 :: tl fist.

(** Curved hand: thumb and three fingers extended, thumb and index tips
    about 0.11 apart. *)
Definition curved_hand : list Landmark :=
  pose (mkLandmark 0.35 0.35 0) (mkLandmark 0.45 0.3 0) (mkLandmark 0.5 0.3 0)
       (mkLandmark 0.55 0.3 0) (mkLandmark 0.6 0.6 0).

(** Index and middle up, tips about 0.06 apart: fingers [0,1,1,0,0]. *)
Definition two_fingers_gap : list Landmark :=
  pose (mkLandmark 0.6 0.5 0) (mkLandmark 0.40 0.3 0) (mkLandmark 0.46 0.3 0)
       (mkLandmark 0.5 0.6 0) (mkLandmark 0.5 0.6 0).

(** A sequence that is too short. *)
Definition short_sequence : list Landmark := firstn 20 fist.

(** No landmark sequence above reaches the rule of the letter L, the only
    reader of [math.atan2]; the examples run with this function in its
    place. *)
Definition atan2_unused : float -> float -> float := fun _ _ => nan.

(** A C library whose [pow(v, 2.0)] is the correctly rounded square, with a
    range error when it overflows or underflows to zero; the examples run
    with it.  Their distances stay away from the thresholds by far more
    than a rounding error. *)
Definition pow2_rounded (v : float) : float * errno :=
  let r := v * v in
  (r, if is_infinity r || (r =? 0) then ERANGE else ENONE).

(** [draw_landmarks] with the hand connections: it raises [ValueError] when
    a connection names a landmark that the sequence does not have. *)
Definition draw_hand (landmarks : list Landmark) : exc unit :=
  if (List.length landmarks <? 21)%nat then Raise ValueError else Ok tt.

(** A hand in a frame of width 1280, both clock readings at [now]. *)
Definition hand_at (landmarks : list Landmark) (now : float)
  : SignLanguageTranslator.hand :=
  SignLanguageTranslator.mkHand landmarks 1280 now now.

(** A frame with one hand. *)
Definition frame (landmarks : list Landmark) (now : float)
  : list SignLanguageTranslator.hand :=
  [hand_at landmarks now].

(** The closed fist with the thumb tip far behind the hand: the square of
    the depth difference is beyond the floats. *)
Definition fist_far_thumb : list Landmark :=
  pose (mkLandmark 0.5 0.6 1e200) (mkLandmark 0.5 0.6 0) (mkLandmark 0.5 0.6 0)
       (mkLandmark 0.5 0.6 0) (mkLandmark 0.5 0.6 0).

(** The curved hand with the middle tip far behind the hand. *)
Definition curved_hand_far_middle : list Landmark :=
  pose (mkLandmark 0.35 0.35 0) (mkLandmark 0.45 0.3 0)
       (mkLandmark 0.5 0.3 1e200)
       (mkLandmark 0.55 0.3 0) (mkLandmark 0.6 0.6 0).


(** A session with recognition switched on. *)
Definition active : SignLanguageTranslator.t :=
  SignLanguageTranslator.toggle_recognition SignLanguageTranslator.init.

End Fixtures.

(** ** Vocabulary of the further properties *)

(** The labels that [recognize_sign] has a reachable [return] for. *)
Definition returned_signs : list string :=
  ["A"; "B"; "C"; "D"; "E"; "F"; "I"; "K"; "L"; "O"; "U"; "V"; "W"; "Y";
   "HELLO"; "GOOD"; "HELP"]%string.

(** The indices of the landmarks whose coordinates reach the result of
    [recognize_sign]: the thumb tip and its joint, the index knuckle, and
    the tip and middle joint of the four fingers. *)
Definition read_indices : list nat :=
  [3; 4; 5; 6; 8; 10; 12; 14; 16; 18; 20]%nat.

(** [c.isspace()] for a character below 256: the ASCII controls 9 to 13 and
    28 to 31, the space, NEL (133) and the no-break space (160). *)
Definition isspace (c : Ascii.ascii) : bool :=
  let n := Ascii.nat_of_ascii c in
  ((9 <=? n) && (n <=? 13) || (28 <=? n) && (n <=? 32)
   || (n =? 133) || (n =? 160))%nat.

(** [text.split()]: the maximal runs of characters that are not white space.
    [word] is the run being read, if any. *)
Fixpoint split_from (text : string) (word : option string) : list string :=
  match text with
  | EmptyString =>
      match word with
      | Some w => [w]
      | None => []
      end
  | String c rest =>
      if isspace c then
        match word with
        | Some w => w :: split_from rest None
        | None => split_from rest None
        end
      else
        split_from rest
          (Some (match word with
                 | Some w => (w ++ String c EmptyString)%string
                 | None => String c EmptyString
                 end))
  end.

Definition split (text : string) : list string := split_from text None.

(** [len(self.current_text.split())]: the number that [add_sign] writes on
    the words label. *)
Definition word_count (text : string) : nat := List.length (split text).

(** A string without white space. *)
Fixpoint no_space (s : string) : bool :=
  match s with
  | EmptyString => true
  | String c rest => negb (isspace c) && no_space rest
  end.

(** More landmark sequences. *)
Module MoreFixtures.

Import SignLanguageRecognizer Fixtures.
Local Open Scope float_scope.

(** Open hand, thumb and index tips far apart: fingers [1,1,1,1,1]. *)
Definition open_hand : list Landmark :=
  pose (mkLandmark 0.2 0.5 0) (mkLandmark 0.45 0.3 0) (mkLandmark 0.5 0.3 0)
       (mkLandmark 0.55 0.3 0) (mkLandmark 0.6 0.3 0).

(** Thumb and index extended, wide apart: fingers [1,1,0,0,0]. *)
Definition thumb_and_index : list Landmark :=
  pose (mkLandmark 0.2 0.5 0) (mkLandmark 0.5 0.2 0) (mkLandmark 0.5 0.6 0)
       (mkLandmark 0.5 0.6 0) (mkLandmark 0.5 0.6 0).

(** The closed fist with its wrist, palm joints and a trailing landmark
    elsewhere. *)
Definition fist_moved_wrist : list Landmark :=
  (mkLandmark 0.1 0.9 0.3 :: tl fist) ++ [mkLandmark 0.7 0.7 0.7].

(** A session with recognition on whose cooldown was set to zero while E
    was the tracked sign. *)
Definition zero_cooldown : SignLanguageTranslator.t :=
  SignLanguageTranslator.set_recognizer
    (SignLanguageRecognizer.mk 0 (Some "E"%string) 0 0.8) active.

(** A session with recognition on that has tracked A since time 0. *)
Definition tracking_A : SignLanguageTranslator.t :=
  SignLanguageTranslator.set_recognizer
    (SignLanguageRecognizer.mk 0 (Some "A"%string) 1.5 0.8) active.

(** The session after a first frame that showed A at time 0: A is
    displayed and tracked, its hold started at 0. *)
Definition seen_A : SignLanguageTranslator.t :=
  SignLanguageTranslator.set_current_sign (Some "A"%string) tracking_A.

End MoreFixtures.

(** * Properties *)

(** ** Order of binary64 numbers *)

Section FloatOrder.

Local Open Scope float_scope.

Lemma SFcompare_finite_Lt_trans s1 m1 e1 s2 m2 e2 s3 m3 e3 :
  SFcompare (S754_finite s1 m1 e1) (S754_finite s2 m2 e2) = Some Lt ->
  SFcompare (S754_finite s2 m2 e2) (S754_finite s3 m3 e3) = Some Lt ->
  SFcompare (S754_finite s1 m1 e1) (S754_finite s3 m3 e3) = Some Lt.
Proof.
  unfold SFcompare. change (Pos.compare_cont Eq) with Pos.compare.
  destruct s1, s2, s3; try congruence;
    destruct (Z.compare_spec e1 e2), (Z.compare_spec e2 e3),
             (Z.compare_spec e1 e3);
    destruct (Pos.compare_spec m1 m2), (Pos.compare_spec m2 m3),
             (Pos.compare_spec m1 m3);
    simpl; try congruence; lia.
Qed.

Lemma SFltb_trans a b c :
  SFltb a b = true -> SFltb b c = true -> SFltb a c = true.
Proof.
  unfold SFltb.
  destruct (SFcompare a b) as [[]|] eqn:Hab; try discriminate.
  destruct (SFcompare b c) as [[]|] eqn:Hbc; try discriminate.
  intros _ _.
  destruct a as [sa|sa| |sa ma ea], b as [sb|sb| |sb mb eb],
           c as [sc|sc| |sc mc ec];
    try (rewrite (SFcompare_finite_Lt_trans _ _ _ _ _ _ _ _ _ Hab Hbc);
         reflexivity);
    simpl in *;
    repeat match goal with
           | s : bool |- _ => destruct s
           end;
    simpl in *; congruence.
Qed.

Lemma SFleb_not_SFltb a b : SFleb a b = true -> SFltb b a = false.
Proof.
  unfold SFleb, SFltb.
  destruct a as [sa|sa| |sa ma ea], b as [sb|sb| |sb mb eb]; simpl;
    repeat match goal with
           | s : bool |- _ => destruct s
           end;
    simpl; try congruence;
    change (Pos.compare_cont Eq) with Pos.compare;
    destruct (Z.compare_spec ea eb), (Z.compare_spec eb ea);
    destruct (Pos.compare_spec ma mb), (Pos.compare_spec mb ma);
    simpl; try congruence; lia.
Qed.

(** [<] is transitive on floats (a NaN is below and above nothing). *)
Lemma ltb_trans (a b c : float) :
  (a <? b) = true -> (b <? c) = true -> (a <? c) = true.
Proof. rewrite !ltb_spec. apply SFltb_trans. Qed.

(** [a <= b] excludes [b < a]. *)
Lemma leb_not_ltb (a b : float) : (a <=? b) = true -> (b <? a) = false.
Proof. rewrite leb_spec, ltb_spec. apply SFleb_not_SFltb. Qed.

End FloatOrder.

(** ** Subtraction and squares of binary64 numbers *)

Section FloatSquares.

Local Open Scope float_scope.

Lemma binary_round_aux_negb s m e l :
  binary_round_aux prec emax (negb s) m e l
  = SFopp (binary_round_aux prec emax s m e l).
Proof.
  unfold binary_round_aux.
  destruct (shr_fexp prec emax m e l) as [mrs' e'].
  destruct (shr_fexp prec emax _ e' loc_Exact) as [mrs'' e''].
  destruct (shr_m mrs''); try reflexivity.
  destruct (Z.leb e'' (emax - prec)); reflexivity.
Qed.

Lemma binary_normalize_opp m e :
  binary_normalize prec emax (- m) e false
  = SFopp (binary_normalize prec emax m e false)
  \/ binary_normalize prec emax (- m) e false
     = binary_normalize prec emax m e false.
Proof.
  destruct m as [|p|p]; simpl.
  - right; reflexivity.
  - left. unfold binary_round.
    destruct (shl_align p e _) as [mz ez].
    apply (binary_round_aux_negb false).
  - left. unfold binary_round.
    destruct (shl_align p e _) as [mz ez].
    apply (binary_round_aux_negb true).
Qed.

(** Swapping the operands of a subtraction negates the difference, or
    leaves it as it is (a zero or a NaN). *)
Lemma SF64sub_swap a b :
  SF64sub b a = SFopp (SF64sub a b) \/ SF64sub b a = SF64sub a b.
Proof.
  unfold SF64sub.
  destruct a as [sa|sa| |sa ma ea], b as [sb|sb| |sb mb eb];
    try (destruct sa, sb; simpl; auto; fail);
    try (destruct sa; simpl; auto; fail);
    try (destruct sb; simpl; auto; fail);
    try (simpl; auto; fail).
  unfold SFsub. rewrite (Z.min_comm eb ea).
  set (u := cond_Zopp sa _). set (v := cond_Zopp sb _).
  replace (v - u)%Z with (- (u - v))%Z by lia.
  apply binary_normalize_opp.
Qed.

Lemma SFabs_opp a : SFabs (SFopp a) = SFabs a.
Proof. destruct a; reflexivity. Qed.

(** The absolute value of a difference does not depend on the order of the
    operands. *)
Lemma abs_sub_swap (a b : float) : abs (b - a) = abs (a - b).
Proof.
  apply Prim2SF_inj. rewrite !abs_spec, !sub_spec.
  destruct (SF64sub_swap (Prim2SF a) (Prim2SF b)) as [H | H]; rewrite H.
  - apply SFabs_opp.
  - reflexivity.
Qed.

(** The tests of [float_pow2] on a finite number that is not zero. *)
Lemma finite_tests (a : float) s m e :
  Prim2SF a = S754_finite s m e ->
  is_nan a = false /\ is_infinity a = false
  /\ (a =? 0) = false /\ (a <? 0) = s.
Proof.
  intros E. unfold is_nan, is_infinity.
  rewrite !eqb_spec, ltb_spec, abs_spec, E.
  change (Prim2SF 0) with (S754_zero false).
  change (Prim2SF infinity) with (S754_infinity false).
  repeat split.
  - unfold SFeqb, SFcompare.
    change (Pos.compare_cont Eq m m) with (Pos.compare m m).
    rewrite Z.compare_refl, Pos.compare_refl. destruct s; reflexivity.
  - destruct s; reflexivity.
  - destruct s; reflexivity.
Qed.

(** [x ** 2] only looks at the absolute value of [x]. *)
Lemma float_pow2_abs (f : float -> float * errno) (a : float) :
  float_pow2 f a = float_pow2 f (abs a).
Proof.
  destruct (Prim2SF a) as [s|s| |s m e] eqn:E.
  - rewrite <- (SF2Prim_Prim2SF a), E. destruct s; reflexivity.
  - rewrite <- (SF2Prim_Prim2SF a), E. destruct s; reflexivity.
  - rewrite <- (SF2Prim_Prim2SF a), E. reflexivity.
  - destruct s.
    + assert (Ea : Prim2SF (abs a) = S754_finite false m e)
        by (rewrite abs_spec, E; reflexivity).
      assert (Eo : (- a) = abs a)
        by (apply Prim2SF_inj; rewrite opp_spec, Ea, E; reflexivity).
      destruct (finite_tests _ _ _ _ E) as (N1 & I1 & Z1 & L1).
      destruct (finite_tests _ _ _ _ Ea) as (N2 & I2 & Z2 & L2).
      unfold float_pow2. rewrite N1, I1, Z1, L1, N2, I2, Z2, L2, Eo.
      reflexivity.
    + replace (abs a) with a; [reflexivity|].
      apply Prim2SF_inj. rewrite abs_spec, E. reflexivity.
Qed.

(** The square of a difference, or the exception it raises, does not depend
    on the order of the operands. *)
Lemma float_pow2_sub_swap (f : float -> float * errno) (a b : float) :
  float_pow2 f (b - a) = float_pow2 f (a - b).
Proof.
  rewrite (float_pow2_abs f (b - a)), (float_pow2_abs f (a - b)),
    abs_sub_swap.
  reflexivity.
Qed.

Lemma binary_round_aux_unsigned m e l :
  unsigned (binary_round_aux prec emax false m e l) = true.
Proof.
  unfold binary_round_aux.
  destruct (shr_fexp prec emax m e l) as [mrs' e'].
  destruct (shr_fexp prec emax _ e' loc_Exact) as [mrs'' e''].
  destruct (shr_m mrs''); try reflexivity.
  destruct (Z.leb e'' (emax - prec)); reflexivity.
Qed.

Lemma unsigned_not_below_zero a :
  unsigned a = true -> SFltb a (S754_zero false) = false.
Proof. destruct a as [s|s| |s m e]; try destruct s; try discriminate; reflexivity. Qed.

(** A square root is never below zero. *)
Lemma sqrt_not_below_zero (a : float) : (sqrt a <? 0) = false.
Proof.
  rewrite ltb_spec, sqrt_spec. change (Prim2SF 0) with (S754_zero false).
  destruct (Prim2SF a) as [s|s| |s m e]; try destruct s; try reflexivity.
  unfold SF64sqrt, SFsqrt.
  destruct (SFsqrt_core_binary prec emax (Z.pos m) e) as [[mz ez] lz].
  apply unsigned_not_below_zero, binary_round_aux_unsigned.
Qed.

End FloatSquares.

(** ** LandmarkFeatures *)

Section LandmarkFeatures.

Import SignLanguageRecognizer.
Local Open Scope float_scope.

Variable libm_pow2 : float -> float * errno.

Lemma get_distance_swap (p1 p2 : Landmark) :
  get_distance libm_pow2 p1 p2 = get_distance libm_pow2 p2 p1.
Proof.
  unfold get_distance.
  rewrite (float_pow2_sub_swap libm_pow2 (x p1) (x p2)),
    (float_pow2_sub_swap libm_pow2 (y p1) (y p2)),
    (float_pow2_sub_swap libm_pow2 (z p1) (z p2)).
  reflexivity.
Qed.

(** With Python's [==]: two returned distances compare equal unless they
    are NaN. *)
Lemma get_distance_swap_eqb (p1 p2 : Landmark) (d : float) :
  get_distance libm_pow2 p1 p2 = Ok d ->
  is_nan d = false ->
  exists d', get_distance libm_pow2 p2 p1 = Ok d' /\ (d =? d') = true.
Proof.
  intros H N. exists d. split.
  - rewrite <- H. symmetry. apply get_distance_swap.
  - unfold is_nan in N. destruct (d =? d); [reflexivity | discriminate].
Qed.

(** C10: [get_distance] is symmetric: for every pair of landmarks [p1] and
    [p2], the call with [p1] and [p2] and the call with [p2] and [p1] return
    the same distance (the same binary64 value; all NaNs are one value), or
    raise the same exception. *)
Theorem get_distance_sym (p1 p2 : Landmark) :
  get_distance libm_pow2 p1 p2 = get_distance libm_pow2 p2 p1.
Proof.
  unfold get_distance.
  rewrite (float_pow2_sub_swap libm_pow2 (x p1) (x p2)),
    (float_pow2_sub_swap libm_pow2 (y p1) (y p2)),
    (float_pow2_sub_swap libm_pow2 (z p1) (z p2)).
  reflexivity.
Qed.

End LandmarkFeatures.

(** ** SignClassifier *)

Section SignClassifier.

Import SignLanguageRecognizer.
Local Open Scope float_scope.

Variable libm_pow2 : float -> float * errno.
Variable atan2 : float -> float -> float.

(** A landmark sequence with an item at every index that the recogniser
    reads is one of at least 21 items. *)
Lemma item_Ok (landmarks : list Landmark) (i : nat) :
  (i < List.length landmarks)%nat -> exists p, item landmarks i = Ok p.
Proof.
  intros H. unfold item.
  destruct (nth_error landmarks i) as [p|] eqn:E.
  - eauto.
  - apply nth_error_None in E. lia.
Qed.

Lemma item_IndexError (landmarks : list Landmark) (i : nat) :
  (List.length landmarks <= i)%nat -> item landmarks i = Raise IndexError.
Proof.
  intros H. unfold item.
  apply nth_error_None in H. rewrite H. reflexivity.
Qed.

(** [x ** 2] and a distance raise [OverflowError] or [ValueError] only. *)
Lemma float_pow2_raises (a : float) (e : exception) :
  float_pow2 libm_pow2 a = Raise e -> e = OverflowError \/ e = ValueError.
Proof.
  unfold float_pow2.
  destruct (is_nan a); [discriminate|].
  destruct (is_infinity a); [discriminate|].
  destruct (a =? 0); [discriminate|].
  destruct ((if a <? 0 then - a else a) =? 1); [discriminate|].
  destruct (libm_pow2 (if a <? 0 then - a else a)) as [ix [ | | ]];
    try destruct (is_infinity ix); try destruct (ix =? 0);
    intros [= <-]; auto.
Qed.

Lemma get_distance_raises (p1 p2 : Landmark) (e : exception) :
  get_distance libm_pow2 p1 p2 = Raise e ->
  e = OverflowError \/ e = ValueError.
Proof.
  unfold get_distance.
  destruct (float_pow2 libm_pow2 (x p1 - x p2)) eqn:E1; cbn [bind];
    [|intros [= <-]; exact (float_pow2_raises _ _ E1)].
  destruct (float_pow2 libm_pow2 (y p1 - y p2)) eqn:E2; cbn [bind];
    [|intros [= <-]; exact (float_pow2_raises _ _ E2)].
  destruct (float_pow2 libm_pow2 (z p1 - z p2)) eqn:E3; cbn [bind];
    [|intros [= <-]; exact (float_pow2_raises _ _ E3)].
  unfold math_sqrt.
  destruct (is_nan (sqrt (a + a0 + a1)) && negb (is_nan (a + a0 + a1)));
    [intros [= <-]; auto|].
  destruct (is_infinity (sqrt (a + a0 + a1)) && is_finite (a + a0 + a1));
    [intros [= <-]; auto | discriminate].
Qed.

(** Name the 21 landmarks of a sequence that is long enough, and run the
    indexing of the recogniser on them. *)
Ltac name_landmarks landmarks :=
  destruct landmarks as
    [|p0 [|p1 [|p2 [|p3 [|p4 [|p5 [|p6 [|p7 [|p8 [|p9 [|p10 [|p11 [|p12
     [|p13 [|p14 [|p15 [|p16 [|p17 [|p18 [|p19 [|p20 rest]]]]]]]]]]]]]]]]]]]]].

Ltac run_indexing :=
  unfold recognize_sign, matches_C, matches_O, get_finger_status,
    thumb_index_dist, thumb_middle_dist, index_middle_dist in *;
  cbn [item nth_error bind finger_loop combine finger_tips finger_pips] in *.

(** Case analysis on the five finger tests. *)
Ltac finger_cases :=
  repeat match goal with
    | |- context [if ?a <? ?b then [1%Z] else [0%Z]] => destruct (a <? b)
    | |- context [if ?a <? ?b then 1%Z else 0%Z] => destruct (a <? b)
    | _ : context [if ?a <? ?b then [1%Z] else [0%Z]] |- _ =>
        destruct (a <? b)
    | _ : context [if ?a <? ?b then 1%Z else 0%Z] |- _ => destruct (a <? b)
    end.

(** Case analysis on the distances: each is returned or raises. *)
Ltac distance_cases :=
  repeat match goal with
    | |- context [bind (get_distance ?f ?a ?b) _] =>
        destruct (get_distance f a b) as [?d|?e] eqn:?; cbn [bind]
    end.

(** Use the distances that the hypotheses give. *)
Ltac use_distances :=
  repeat match goal with
    | H : get_distance _ _ _ = Ok _ |- _ => rewrite H in *; clear H
    end;
  cbn [bind] in *.

Ltac eval_rules :=
  unfold is_C, is_O, is_U, is_V in *;
  cbn [app list_eqb Z.eqb Pos.eqb andb and_then rule bind sum fold_left
       Z.add Pos.add Pos.succ Z.leb Z.compare Pos.compare Pos.compare_cont]
    in *.

(** Walk down the rule table, splitting on every test that is left. *)
Ltac walk_rules :=
  repeat (eval_rules;
          match goal with
          | |- context [and_then ?c _] => destruct c eqn:?
          | |- context [rule (Ok ?c) _ _] => destruct c eqn:?
          | |- context [if ?c then _ else _] => destruct c eqn:?
          end);
  eval_rules.

(** The same walk, on the goal alone and without a record of the cases. *)
Ltac walk_goal :=
  repeat (unfold is_C, is_O, is_U, is_V;
          cbn [app list_eqb Z.eqb Pos.eqb andb and_then rule bind sum
               fold_left Z.add Pos.add Pos.succ Z.leb Z.compare Pos.compare
               Pos.compare_cont];
          match goal with
          | |- context [and_then ?c _] => destruct c
          | |- context [rule (Ok ?c) _ _] => destruct c
          | |- context [if ?c then _ else _] => destruct c
          end).

(** [recognize_sign] raises [IndexError] on the sequences with fewer than 21
    landmarks; on the others it returns when the three distances do, and
    raises what the first failing distance raises. *)
Lemma recognize_sign_IndexError (landmarks : list Landmark) :
  (List.length landmarks < 21)%nat ->
  recognize_sign libm_pow2 atan2 landmarks = Raise IndexError.
Proof.
  intros H. name_landmarks landmarks; run_indexing; try reflexivity.
  simpl in H. lia.
Qed.

Lemma recognize_sign_returns (landmarks : list Landmark) (d1 d2 d3 : float) :
  thumb_index_dist libm_pow2 landmarks = Ok d1 ->
  thumb_middle_dist libm_pow2 landmarks = Ok d2 ->
  index_middle_dist libm_pow2 landmarks = Ok d3 ->
  (21 <= List.length landmarks)%nat ->
  exists sign, recognize_sign libm_pow2 atan2 landmarks = Ok sign.
Proof.
  intros H1 H2 H3 H. name_landmarks landmarks; try (simpl in H; lia).
  run_indexing. use_distances. finger_cases; walk_rules; eauto.
Qed.

Lemma recognize_sign_raises (landmarks : list Landmark) (e : exception) :
  (21 <= List.length landmarks)%nat ->
  recognize_sign libm_pow2 atan2 landmarks = Raise e ->
  e = OverflowError \/ e = ValueError.
Proof.
  intros H. name_landmarks landmarks; try (simpl in H; lia).
  run_indexing.
  destruct (get_distance libm_pow2 p4 p8) eqn:E1; cbn [bind];
    [|intros [= <-]; exact (get_distance_raises _ _ _ E1)].
  destruct (get_distance libm_pow2 p4 p12) eqn:E2; cbn [bind];
    [|intros [= <-]; exact (get_distance_raises _ _ _ E2)].
  destruct (get_distance libm_pow2 p8 p12) eqn:E3; cbn [bind];
    [|intros [= <-]; exact (get_distance_raises _ _ _ E3)].
  finger_cases; walk_goal; discriminate.
Qed.

Lemma get_finger_status_length (landmarks : list Landmark) (fingers : list Z) :
  get_finger_status landmarks = Ok fingers ->
  (21 <= List.length landmarks)%nat.
Proof.
  intros H. name_landmarks landmarks; run_indexing; try discriminate.
  simpl. lia.
Qed.

(** C2: for every landmark sequence, [recognize_sign] returns neither THANKS
    nor PLEASE: the rule of HELLO (five fingers extended) comes first and
    leaves nothing for the two rules that follow it. *)
Theorem thanks_please_unreachable (landmarks : list Landmark) :
  recognize_sign libm_pow2 atan2 landmarks <> Ok (Some "THANKS"%string)
  /\ recognize_sign libm_pow2 atan2 landmarks <> Ok (Some "PLEASE"%string).
Proof.
  destruct (Nat.lt_ge_cases (List.length landmarks) 21) as [H | H].
  - rewrite (recognize_sign_IndexError _ H). split; discriminate.
  - name_landmarks landmarks; try (simpl in H; lia). clear H.
    run_indexing. distance_cases; try (split; discriminate).
    finger_cases; walk_rules; split; discriminate.
Qed.


(** A distance that raises makes [recognize_sign] raise the same exception,
    whatever the fingers are: the distances are computed before the first
    rule. *)
Lemma thumb_index_dist_raises (landmarks : list Landmark) (fingers : list Z)
      (e : exception) :
  get_finger_status landmarks = Ok fingers ->
  thumb_index_dist libm_pow2 landmarks = Raise e ->
  recognize_sign libm_pow2 atan2 landmarks = Raise e.
Proof.
  intros H H1. unfold recognize_sign. rewrite H, H1. reflexivity.
Qed.

Lemma thumb_middle_dist_raises (landmarks : list Landmark) (fingers : list Z)
      (d1 : float) (e : exception) :
  get_finger_status landmarks = Ok fingers ->
  thumb_index_dist libm_pow2 landmarks = Ok d1 ->
  thumb_middle_dist libm_pow2 landmarks = Raise e ->
  recognize_sign libm_pow2 atan2 landmarks = Raise e.
Proof.
  intros H H1 H2. unfold recognize_sign. rewrite H, H1, H2. reflexivity.
Qed.

Lemma index_middle_dist_raises (landmarks : list Landmark) (fingers : list Z)
      (d1 d2 : float) (e : exception) :
  get_finger_status landmarks = Ok fingers ->
  thumb_index_dist libm_pow2 landmarks = Ok d1 ->
  thumb_middle_dist libm_pow2 landmarks = Ok d2 ->
  index_middle_dist libm_pow2 landmarks = Raise e ->
  recognize_sign libm_pow2 atan2 landmarks = Raise e.
Proof.
  intros H H1 H2 H3. unfold recognize_sign. rewrite H, H1, H2, H3.
  reflexivity.
Qed.

(** Two tips at the same place of the frame, 1e200 apart in depth: the
    distance raises [OverflowError] with every C library whose
    [pow(1e200, 2.0)] is infinite. *)
Lemma get_distance_overflow (a b : float) :
  is_finite a = true -> is_finite b = true ->
  is_infinity (fst (libm_pow2 1e200)) = true ->
  snd (libm_pow2 1e200) <> EOTHER ->
  get_distance libm_pow2 (mkLandmark a b 1e200) (mkLandmark a b 0)
  = Raise OverflowError.
Proof.
  intros Ha Hb Hi He. unfold get_distance. cbn [x y z].
  assert (Da : a - a = 0).
  { apply Prim2SF_inj. rewrite sub_spec.
    unfold is_finite, is_nan, is_infinity in Ha.
    rewrite !eqb_spec, abs_spec in Ha.
    destruct (Prim2SF a) as [s|s| |s m e]; try destruct s; try discriminate;
      try reflexivity;
      unfold SF64sub, SFsub; rewrite Z.sub_diag; reflexivity. }
  assert (Db : b - b = 0).
  { apply Prim2SF_inj. rewrite sub_spec.
    unfold is_finite, is_nan, is_infinity in Hb.
    rewrite !eqb_spec, abs_spec in Hb.
    destruct (Prim2SF b) as [s|s| |s m e]; try destruct s; try discriminate;
      try reflexivity;
      unfold SF64sub, SFsub; rewrite Z.sub_diag; reflexivity. }
  rewrite Da, Db.
  change (float_pow2 libm_pow2 0) with (@Ok float 0). cbn [bind].
  change (1e200 - 0) with 1e200.
  unfold float_pow2.
  change (is_nan 1e200) with false. change (is_infinity 1e200) with false.
  change (1e200 =? 0) with false. change (1e200 <? 0) with false.
  change (1e200 =? 1) with false. cbn iota.
  destruct (libm_pow2 1e200) as [ix er]. cbn [fst snd] in *.
  rewrite Hi. destruct er; cbn.
  - reflexivity.
  - replace (ix =? 0) with false; [reflexivity|].
    symmetry. rewrite eqb_spec. unfold is_infinity in Hi.
    rewrite eqb_spec, abs_spec in Hi.
    change (Prim2SF 0) with (S754_zero false).
    change (Prim2SF infinity) with (S754_infinity false) in Hi.
    destruct (Prim2SF ix) as [s|s| |s m e]; try destruct s;
      try discriminate; reflexivity.
  - contradiction.
Qed.

(** The bands of C and O do not meet: a distance above 0.1 is not below
    0.08. *)
Lemma above_C_floor_not_O (d : float) :
  (0.1 <? d) = true -> (d <? 0.08) = false.
Proof.
  intros H. destruct (d <? 0.08) eqn:E; [|reflexivity].
  pose proof (ltb_trans _ _ _ H E) as F. vm_compute in F. discriminate.
Qed.

(** C4 (amended): a landmark sequence that satisfies the condition of rule 3
    (at least 3 fingers extended, thumb-index distance strictly between 0.10
    and 0.25) does not satisfy the condition of rule 10 (distance below
    0.08); when its two other distances are returned, it is classified C
    unless its fingers are [0,1,1,1,1], which rule 2 classifies B before
    rule 3 is tried. *)
Theorem C_band_excludes_O (landmarks : list Landmark) (d2 d3 : float) :
  matches_C libm_pow2 landmarks = Ok true ->
  get_finger_status landmarks <> Ok [0; 1; 1; 1; 1]%Z ->
  thumb_middle_dist libm_pow2 landmarks = Ok d2 ->
  index_middle_dist libm_pow2 landmarks = Ok d3 ->
  matches_O libm_pow2 landmarks = Ok false
  /\ recognize_sign libm_pow2 atan2 landmarks = Ok (Some "C"%string).
Proof.
  intros H HB H2 H3.
  name_landmarks landmarks; run_indexing; try discriminate.
  destruct (get_distance libm_pow2 p4 p8) as [d1|]; cbn [bind] in *;
    [|finger_cases; discriminate].
  use_distances.
  finger_cases; eval_rules; try discriminate;
    try (exfalso; apply HB; reflexivity);
    injection H as H; rewrite H;
    apply andb_true_iff in H; destruct H as [H _];
    rewrite (above_C_floor_not_O _ H); split; reflexivity.
Qed.


(** *** Further properties of the classifier *)

(** X1: on a sequence of at least 21 landmarks [get_finger_status] returns
    five flags, each 0 or 1; on a shorter one it raises [IndexError]. *)
Theorem get_finger_status_flags (landmarks : list Landmark) :
  ((List.length landmarks < 21)%nat ->
   get_finger_status landmarks = Raise IndexError)
  /\ ((21 <= List.length landmarks)%nat ->
      exists fingers,
        get_finger_status landmarks = Ok fingers
        /\ List.length fingers = 5%nat
        /\ Forall (fun f => f = 0%Z \/ f = 1%Z) fingers
        /\ (0 <= sum fingers <= 5)%Z).
Proof.
  split; intros H.
  - name_landmarks landmarks; run_indexing; try reflexivity.
    simpl in H. lia.
  - name_landmarks landmarks; try (simpl in H; lia). run_indexing.
    finger_cases; eexists; (split; [reflexivity|]);
      (split; [reflexivity|]); (split; [|unfold sum; simpl; lia]);
      repeat apply Forall_cons; try apply Forall_nil; auto.
Qed.

(** X6: [recognize_sign] raises [IndexError] exactly on the sequences of
    fewer than 21 landmarks.  On a sequence of 21 landmarks or more it
    raises nothing but [OverflowError] or [ValueError], and it returns (a
    label or [None]) whenever its three distances are returned. *)
Theorem recognize_sign_raises_iff_short (landmarks : list Landmark) :
  (recognize_sign libm_pow2 atan2 landmarks = Raise IndexError
   <-> (List.length landmarks < 21)%nat)
  /\ (forall e,
         (21 <= List.length landmarks)%nat ->
         recognize_sign libm_pow2 atan2 landmarks = Raise e ->
         e = OverflowError \/ e = ValueError)
  /\ (forall d1 d2 d3,
         (21 <= List.length landmarks)%nat ->
         thumb_index_dist libm_pow2 landmarks = Ok d1 ->
         thumb_middle_dist libm_pow2 landmarks = Ok d2 ->
         index_middle_dist libm_pow2 landmarks = Ok d3 ->
         exists sign, recognize_sign libm_pow2 atan2 landmarks = Ok sign).
Proof.
  split; [split|split].
  - intros H.
    destruct (Nat.lt_ge_cases (List.length landmarks) 21) as [L | L];
      [exact L|].
    destruct (recognize_sign_raises _ _ L H); discriminate.
  - apply recognize_sign_IndexError.
  - intros e L H. exact (recognize_sign_raises _ _ L H).
  - intros d1 d2 d3 L H1 H2 H3.
    exact (recognize_sign_returns _ _ _ _ H1 H2 H3 L).
Qed.

(** X5: a label returned by [recognize_sign] is one of the 17 of
    [returned_signs]: besides THANKS and PLEASE, YES is never returned. *)
Theorem recognize_sign_range (landmarks : list Landmark) (s : string) :
  recognize_sign libm_pow2 atan2 landmarks = Ok (Some s) ->
  In s returned_signs /\ s <> "YES"%string.
Proof.
  name_landmarks landmarks; run_indexing; try discriminate.
  distance_cases; try discriminate.
  finger_cases; walk_rules; intros [= <-]; (split; [|discriminate]);
    cbn; repeat (first [left; reflexivity | right]).
Qed.

(** X8: four fingers up with the thumb tucked is B whatever the three
    distances are, once they are returned. *)
Theorem four_fingers_B (landmarks : list Landmark) (d1 d2 d3 : float) :
  get_finger_status landmarks = Ok [0; 1; 1; 1; 1]%Z ->
  thumb_index_dist libm_pow2 landmarks = Ok d1 ->
  thumb_middle_dist libm_pow2 landmarks = Ok d2 ->
  index_middle_dist libm_pow2 landmarks = Ok d3 ->
  recognize_sign libm_pow2 atan2 landmarks = Ok (Some "B"%string).
Proof.
  intros H H1 H2 H3.
  name_landmarks landmarks; run_indexing; try discriminate.
  use_distances. finger_cases; try discriminate. reflexivity.
Qed.

(** X9: with all five fingers extended and the three distances returned,
    the result is C when the thumb-index distance lies strictly between 0.1
    and 0.25, F when it is below 0.08, and HELLO otherwise. *)
Theorem open_hand_C_F_HELLO (landmarks : list Landmark) (d d2 d3 : float) :
  get_finger_status landmarks = Ok [1; 1; 1; 1; 1]%Z ->
  thumb_index_dist libm_pow2 landmarks = Ok d ->
  thumb_middle_dist libm_pow2 landmarks = Ok d2 ->
  index_middle_dist libm_pow2 landmarks = Ok d3 ->
  recognize_sign libm_pow2 atan2 landmarks
  = Ok (Some (if (0.1 <? d) && (d <? 0.25) then "C"%string
              else if d <? 0.08 then "F"%string else "HELLO"%string)).
Proof.
  intros H H1 H2 H3.
  name_landmarks landmarks; run_indexing; try discriminate.
  use_distances.
  finger_cases; try discriminate. eval_rules.
  destruct ((0.1 <? d) && (d <? 0.25)); [reflexivity|].
  destruct (d <? 0.08); reflexivity.
Qed.

(** X10: with the thumb alone extended and the three distances returned,
    the result is A when the thumb tip is below the index tip (larger y),
    GOOD when it is above, and [None] when neither holds. *)
Theorem thumb_only_A_GOOD (landmarks : list Landmark)
        (thumb_tip index_tip : Landmark) (d1 d2 d3 : float) :
  get_finger_status landmarks = Ok [1; 0; 0; 0; 0]%Z ->
  item landmarks 4 = Ok thumb_tip ->
  item landmarks 8 = Ok index_tip ->
  thumb_index_dist libm_pow2 landmarks = Ok d1 ->
  thumb_middle_dist libm_pow2 landmarks = Ok d2 ->
  index_middle_dist libm_pow2 landmarks = Ok d3 ->
  recognize_sign libm_pow2 atan2 landmarks
  = Ok (if y index_tip <? y thumb_tip then Some "A"%string
        else if y thumb_tip <? y index_tip then Some "GOOD"%string
             else None).
Proof.
  intros H H4 H8 H1 H2 H3.
  name_landmarks landmarks; run_indexing; try discriminate.
  injection H4 as <-. injection H8 as <-. use_distances.
  finger_cases; try discriminate. eval_rules.
  destruct (y p8 <? y p4); [reflexivity|].
  destruct (y p4 <? y p8); reflexivity.
Qed.

(** X11: with thumb and index alone extended and the three distances
    returned, the result is never [None]: it is D when the thumb-middle
    distance is below 0.08, and otherwise L or HELP, HELP when the
    thumb-index distance is not above 0.15. *)
Theorem thumb_index_D_L_HELP (landmarks : list Landmark) (d dm d3 : float) :
  get_finger_status landmarks = Ok [1; 1; 0; 0; 0]%Z ->
  thumb_index_dist libm_pow2 landmarks = Ok d ->
  thumb_middle_dist libm_pow2 landmarks = Ok dm ->
  index_middle_dist libm_pow2 landmarks = Ok d3 ->
  ((dm <? 0.08) = true ->
   recognize_sign libm_pow2 atan2 landmarks = Ok (Some "D"%string))
  /\ ((dm <? 0.08) = false ->
      recognize_sign libm_pow2 atan2 landmarks = Ok (Some "L"%string)
      \/ recognize_sign libm_pow2 atan2 landmarks = Ok (Some "HELP"%string))
  /\ ((dm <? 0.08) = false -> (0.15 <? d) = false ->
      recognize_sign libm_pow2 atan2 landmarks = Ok (Some "HELP"%string)).
Proof.
  intros H H1 H2 H3.
  name_landmarks landmarks; run_indexing; try discriminate.
  use_distances.
  finger_cases; try discriminate. eval_rules.
  repeat split.
  - intros ->. reflexivity.
  - intros ->.
    destruct (0.15 <? d); cbn [and_then rule bind];
      [|right; reflexivity].
    destruct ((70 <? get_angle atan2 p4 p5 p8)
              && (get_angle atan2 p4 p5 p8 <? 110)); auto.
  - intros -> ->. reflexivity.
Qed.

(** X7: the result of [recognize_sign] depends on the landmarks at
    [read_indices] only: the wrist, the palm joints and anything past the
    21st landmark have no influence. *)
Theorem recognize_sign_reads_only (l1 l2 : list Landmark) :
  (21 <= List.length l1)%nat ->
  (21 <= List.length l2)%nat ->
  (forall i, In i read_indices -> nth_error l1 i = nth_error l2 i) ->
  recognize_sign libm_pow2 atan2 l1 = recognize_sign libm_pow2 atan2 l2.
Proof.
  intros H1 H2 H.
  name_landmarks l1; try (simpl in H1; lia).
  destruct l2 as
    [|q0 [|q1 [|q2 [|q3 [|q4 [|q5 [|q6 [|q7 [|q8 [|q9 [|q10 [|q11 [|q12
     [|q13 [|q14 [|q15 [|q16 [|q17 [|q18 [|q19 [|q20 rest2]]]]]]]]]]]]]]]]]]]]];
    try (simpl in H2; lia).
  clear H1 H2.
  assert (E : forall i, In i read_indices ->
                        nth i (p0 :: p1 :: p2 :: p3 :: p4 :: p5 :: p6 :: p7
                                :: p8 :: p9 :: p10 :: p11 :: p12 :: p13
                                :: p14 :: p15 :: p16 :: p17 :: p18 :: p19
                                :: p20 :: rest) p0
                        = nth i (q0 :: q1 :: q2 :: q3 :: q4 :: q5 :: q6 :: q7
                                  :: q8 :: q9 :: q10 :: q11 :: q12 :: q13
                                  :: q14 :: q15 :: q16 :: q17 :: q18 :: q19
                                  :: q20 :: rest2) p0).
  { intros i Hi. specialize (H i Hi).
    unfold read_indices in Hi. cbn [In] in Hi.
    repeat (destruct Hi as [<- | Hi]; [cbn in H |- *; congruence|]).
    contradiction. }
  clear H.
  assert (E3 : p3 = q3) by exact (E 3%nat ltac:(cbn; tauto)).
  assert (E4 : p4 = q4) by exact (E 4%nat ltac:(cbn; tauto)).
  assert (E5 : p5 = q5) by exact (E 5%nat ltac:(cbn; tauto)).
  assert (E6 : p6 = q6) by exact (E 6%nat ltac:(cbn; tauto)).
  assert (E8 : p8 = q8) by exact (E 8%nat ltac:(cbn; tauto)).
  assert (E10 : p10 = q10) by exact (E 10%nat ltac:(cbn; tauto)).
  assert (E12 : p12 = q12) by exact (E 12%nat ltac:(cbn; tauto)).
  assert (E14 : p14 = q14) by exact (E 14%nat ltac:(cbn; tauto)).
  assert (E16 : p16 = q16) by exact (E 16%nat ltac:(cbn; tauto)).
  assert (E18 : p18 = q18) by exact (E 18%nat ltac:(cbn; tauto)).
  assert (E20 : p20 = q20) by exact (E 20%nat ltac:(cbn; tauto)).
  subst q3 q4 q5 q6 q8 q10 q12 q14 q16 q18 q20. clear E.
  run_indexing.
  destruct (get_distance libm_pow2 p4 p8); cbn [bind]; [|reflexivity].
  destruct (get_distance libm_pow2 p4 p12); cbn [bind]; [|reflexivity].
  destruct (get_distance libm_pow2 p8 p12); cbn [bind]; [|reflexivity].
  finger_cases; walk_goal; reflexivity.
Qed.

End SignClassifier.

Section SignClassifierExamples.

Import SignLanguageRecognizer Fixtures.
Local Open Scope float_scope.

(** The landmark sequences of the examples are classified without a call
    of [math.atan2]. *)
Lemma examples_classified (atan2 : float -> float -> float) :
  map (recognize_sign pow2_rounded atan2)
      [fist_thumb_side; flat_hand; fist; fist_index_above_wrist;
       curved_hand; two_fingers_gap; short_sequence]
  = [Ok (Some "A"%string); Ok (Some "B"%string); Ok (Some "E"%string);
     Ok (Some "E"%string); Ok (Some "C"%string); Ok None; Raise IndexError].
Proof. reflexivity. Qed.



(** The same with every C library whose [pow(1e200, 2.0)] is infinite. *)
Lemma zero_fingers_overflow_any (libm_pow2 : float -> float * errno)
      (atan2 : float -> float -> float) :
  is_infinity (fst (libm_pow2 1e200)) = true ->
  snd (libm_pow2 1e200) <> EOTHER ->
  recognize_sign libm_pow2 atan2 fist_far_thumb = Raise OverflowError.
Proof.
  intros Hi He.
  apply (thumb_index_dist_raises libm_pow2 atan2 fist_far_thumb
           [0; 0; 0; 0; 0]%Z); [reflexivity|].
  apply (get_distance_overflow libm_pow2 0.5 0.6); auto.
Qed.

(** E comes before YES: a fist whose index tip is above the wrist satisfies
    the test of YES and is classified E all the same. *)
Example fist_index_above_wrist_E :
  recognize_sign pow2_rounded atan2_unused fist_index_above_wrist
  = Ok (Some "E"%string).
Proof. reflexivity. Qed.

(** C4, as stated, fails: no landmark sequence satisfies the conditions of
    rule 3 and of rule 10 together, whatever the C library computes. *)
Lemma C_and_O_never_both :
  ~ exists (libm_pow2 : float -> float * errno) (landmarks : list Landmark),
      matches_C libm_pow2 landmarks = Ok true
      /\ matches_O libm_pow2 landmarks = Ok true.
Proof.
  intros [libm_pow2 [landmarks [HC HO]]].
  unfold matches_C, matches_O in *.
  destruct (get_finger_status landmarks) as [fingers|]; [|discriminate].
  cbn [bind] in *.
  destruct (thumb_index_dist libm_pow2 landmarks) as [d|]; [|discriminate].
  cbn [bind] in *. injection HC as HC. injection HO as HO.
  unfold is_C, is_O in *.
  apply andb_true_iff in HC. destruct HC as [HC _].
  apply andb_true_iff in HC. destruct HC as [_ HC].
  apply andb_true_iff in HO. destruct HO as [_ HO].
  rewrite (above_C_floor_not_O d HC) in HO. discriminate.
Qed.

Lemma C_band_excludes_O_witness :
  matches_C pow2_rounded curved_hand = Ok true
  /\ matches_O pow2_rounded curved_hand = Ok false
  /\ recognize_sign pow2_rounded atan2_unused curved_hand
     = Ok (Some "C"%string).
Proof.
  split; [reflexivity|].
  eapply (C_band_excludes_O pow2_rounded atan2_unused curved_hand);
    try reflexivity; discriminate.
Defined.

(** The curved hand with its middle tip 1e200 behind satisfies the
    condition of rule 3 and raises. *)
Example curved_hand_far_middle_raises :
  matches_C pow2_rounded curved_hand_far_middle = Ok true
  /\ recognize_sign pow2_rounded atan2_unused curved_hand_far_middle
     = Raise OverflowError.
Proof. split; reflexivity. Qed.

(** Rule 2 comes before rule 3: a flat hand in the band of C is B. *)
Example flat_hand_B :
  matches_C pow2_rounded flat_hand = Ok true
  /\ recognize_sign pow2_rounded atan2_unused flat_hand
     = Ok (Some "B"%string).
Proof. split; reflexivity. Qed.



End SignClassifierExamples.

(** ** HoldConfirmation *)

Section HoldConfirmation.

Import SignLanguageRecognizer.
Local Open Scope float_scope.

Lemma sign_eqb_refl (s : option string) : sign_eqb s s = true.
Proof. destruct s as [s|]; [apply String.eqb_refl | reflexivity]. Qed.

Lemma sign_eqb_eq (a b : option string) : sign_eqb a b = true <-> a = b.
Proof.
  destruct a as [a|], b as [b|]; simpl; try (split; congruence).
  rewrite String.eqb_eq. split; congruence.
Qed.

Lemma sign_eqb_neq (a b : option string) : a <> b -> sign_eqb a b = false.
Proof.
  intros H. destruct (sign_eqb a b) eqn:E; [|reflexivity].
  apply sign_eqb_eq in E. contradiction.
Qed.

(** A call confirms only the tracked sign, and then restarts the hold at
    the current time. *)
Lemma is_sign_ready_true (self : t) (sign : option string) (now : float) :
  fst (is_sign_ready self sign now) = true ->
  sign = last_sign self
  /\ (cooldown self <=? now - last_sign_time self) = true
  /\ snd (is_sign_ready self sign now)
     = mk now sign (cooldown self) (confidence_threshold self).
Proof.
  unfold is_sign_ready.
  destruct (sign_eqb sign (last_sign self)) eqn:E; simpl; [|discriminate].
  apply sign_eqb_eq in E.
  destruct (cooldown self <=? now - last_sign_time self); simpl;
    [|discriminate].
  intros _. subst sign. auto.
Qed.

(** A sign other than the tracked one is never confirmed; it becomes the
    tracked sign and its hold starts at the current time. *)
Lemma is_sign_ready_change (self : t) (sign : option string) (now : float) :
  sign <> last_sign self ->
  is_sign_ready self sign now
  = (false, mk now sign (cooldown self) (confidence_threshold self)).
Proof.
  intros H. unfold is_sign_ready.
  rewrite (sign_eqb_neq _ _ H). reflexivity.
Qed.

(** C1: from the initial state, with the cooldown 1.5, the calls for A at
    0.0, 1.4, 1.5, 1.6 and 3.0 answer false, false, true, false, true.
    Every confirmation resets the start of the hold to the current time, so
    that the next call for the same sign confirms exactly when a further
    cooldown has elapsed. *)
Theorem hold_timing :
  cooldown init = 1.5
  /\ fst (observe_all init
            [(Some "A"%string, 0.0); (Some "A"%string, 1.4);
             (Some "A"%string, 1.5); (Some "A"%string, 1.6);
             (Some "A"%string, 3.0)])
     = [false; false; true; false; true]
  /\ (forall self sign now,
         fst (is_sign_ready self sign now) = true ->
         last_sign_time (snd (is_sign_ready self sign now)) = now)
  /\ (forall self sign now now',
         fst (is_sign_ready self sign now) = true ->
         fst (is_sign_ready (snd (is_sign_ready self sign now)) sign now')
         = (cooldown self <=? now' - now)).
Proof.
  split; [reflexivity|]. split; [reflexivity|]. split.
  - intros self sign now H.
    destruct (is_sign_ready_true self sign now H) as (_ & _ & ->).
    reflexivity.
  - intros self sign now now' H.
    destruct (is_sign_ready_true self sign now H) as (_ & _ & ->).
    unfold is_sign_ready. cbn [last_sign last_sign_time cooldown].
    rewrite sign_eqb_refl. cbn [negb].
    destruct (cooldown self <=? now' - now); reflexivity.
Qed.

(** C5: a call with a sign other than the tracked one answers false and
    makes that sign the tracked one, its hold starting at the current
    time. *)
Theorem reset_on_change (self : t) (sign : option string) (now : float) :
  sign <> last_sign self ->
  fst (is_sign_ready self sign now) = false
  /\ last_sign (snd (is_sign_ready self sign now)) = sign
  /\ last_sign_time (snd (is_sign_ready self sign now)) = now.
Proof.
  intros H. rewrite (is_sign_ready_change self sign now H).
  repeat split.
Qed.

(** [observe(A, 0.0)] then [observe(B, 0.1)]: false, and the hold of B
    starts at 0.1. *)
Lemma reset_on_change_witness :
  let self := snd (is_sign_ready init (Some "A"%string) 0.0) in
  last_sign self = Some "A"%string
  /\ last_sign_time self = 0.0
  /\ fst (is_sign_ready self (Some "B"%string) 0.1) = false
  /\ last_sign (snd (is_sign_ready self (Some "B"%string) 0.1))
     = Some "B"%string
  /\ last_sign_time (snd (is_sign_ready self (Some "B"%string) 0.1)) = 0.1.
Proof.
  split; [reflexivity|]. split; [reflexivity|].
  apply (reset_on_change
           (snd (is_sign_ready init (Some "A"%string) 0.0))
           (Some "B"%string) 0.1).
  discriminate.
Defined.

End HoldConfirmation.

(** ** TranscriptAssembler *)

Section TranscriptAssembler.

Import SignLanguageTranslator.

(** C7 (amended): from an empty buffer, adding A, B, a space and C gives
    "AB C"; a backspace then leaves "AB "; clearing then leaves an empty
    buffer, a sign counter of 0 and an empty history when the dialog is
    answered yes, and changes nothing when it is answered no. *)
Theorem transcript_round_trip (self : t) :
  current_text self = ""%string ->
  let typed := add_sign (add_space (add_sign (add_sign self "A") "B")) "C" in
  let cleared := clear_text (backspace typed) true in
  current_text typed = "AB C"%string
  /\ current_text (backspace typed) = "AB "%string
  /\ current_text cleared = ""%string
  /\ total_signs cleared = 0%Z
  /\ sign_history cleared = []
  /\ clear_text (backspace typed) false = backspace typed.
Proof.
  intros H. destruct self; simpl in H; subst. repeat split.
Qed.

Lemma transcript_round_trip_witness :
  current_text init = ""%string
  /\ current_text
       (add_sign (add_space (add_sign (add_sign init "A") "B")) "C")
     = "AB C"%string.
Proof.
  split; [reflexivity|].
  apply (transcript_round_trip init). reflexivity.
Defined.

(** C7, as stated, fails: after the same four additions and the backspace,
    a [clear_text] whose dialog is answered no leaves the buffer "AB ", the
    sign counter 3 and the three signs in the history. *)
Lemma clear_declined_keeps_transcript :
  let typed := add_sign (add_space (add_sign (add_sign init "A") "B")) "C" in
  let kept := clear_text (backspace typed) false in
  current_text kept = "AB "%string
  /\ current_text kept <> ""%string
  /\ total_signs kept = 3%Z
  /\ sign_history kept = ["A"; "B"; "C"]%string.
Proof. repeat split. discriminate. Qed.

(** When the dialog is answered no, [clear_text] changes nothing. *)
Lemma clear_text_declined (self : t) : clear_text self false = self.
Proof. reflexivity. Qed.

(** *** The history deque *)

Lemma append_length (n : nat) (d : list string) (v : string) :
  (List.length d <= n)%nat ->
  (List.length (Deque.append n d v) <= n)%nat.
Proof.
  intros H. unfold Deque.append.
  destruct (Nat.ltb_spec n (List.length (d ++ [v]))) as [E | E].
  - rewrite length_app in E. simpl in E.
    destruct d; simpl in *; [lia|]. rewrite length_app. simpl. lia.
  - exact E.
Qed.

(** A deque within its capacity holds, after any run of appends, the last
    [n] of all the items. *)
Lemma append_all (n : nat) (l d : list string) :
  (List.length d <= n)%nat ->
  fold_left (Deque.append n) l d
  = skipn (List.length d + List.length l - n) (d ++ l).
Proof.
  revert d. induction l as [|v l IH]; intros d H.
  - simpl. rewrite app_nil_r.
    replace (List.length d + 0 - n)%nat with 0%nat by lia. reflexivity.
  - cbn [fold_left]. rewrite (IH _ (append_length n d v H)).
    unfold Deque.append. rewrite length_app. cbn [List.length].
    destruct (Nat.ltb_spec n (List.length d + 1)) as [E | E].
    + (* the deque was full: its first item goes *)
      destruct d as [|u d]; cbn [tl app List.length] in *.
      * assert (n = 0)%nat by lia. subst n.
        rewrite !Nat.sub_0_r. reflexivity.
      * rewrite length_app, <- app_assoc. cbn [List.length app].
        replace (List.length d + 1 + List.length l - n)%nat
          with (List.length l) by lia.
        replace (S (List.length d) + S (List.length l) - n)%nat
          with (S (List.length l)) by lia.
        reflexivity.
    + rewrite length_app, <- app_assoc. cbn [List.length app].
      f_equal. lia.
Qed.

Lemma add_sign_history (signs : list string) (self : t) :
  sign_history (fold_left add_sign signs self)
  = fold_left (Deque.append history_maxlen) signs (sign_history self).
Proof.
  revert self. induction signs as [|s signs IH]; intros self.
  - reflexivity.
  - cbn [fold_left]. rewrite IH. reflexivity.
Qed.

(** The history stays within its capacity under every operation on the
    text. *)
Lemma init_history_bounded : history_bounded init.
Proof. unfold history_bounded. simpl. lia. Qed.

Lemma add_sign_history_bounded (self : t) (s : string) :
  history_bounded self -> history_bounded (add_sign self s).
Proof. intros H. apply (append_length history_maxlen _ s H). Qed.

Lemma add_space_history_bounded (self : t) :
  history_bounded self -> history_bounded (add_space self).
Proof. intros H. exact H. Qed.

Lemma backspace_history_bounded (self : t) :
  history_bounded self -> history_bounded (backspace self).
Proof.
  intros H. unfold backspace. destruct (current_text self); exact H.
Qed.

Lemma clear_text_history_bounded (self : t) (answer : bool) :
  history_bounded self -> history_bounded (clear_text self answer).
Proof.
  intros H. destruct answer; [|exact H].
  unfold history_bounded. simpl. lia.
Qed.

(** C8: the history never exceeds 10 entries, and adding 11 signs to any
    session leaves exactly the last 10 of them, in the order added: the
    oldest entries are dropped first. *)
Theorem history_keeps_last_10 (self : t) (signs : list string) :
  history_bounded self ->
  List.length signs = 11%nat ->
  sign_history (fold_left add_sign signs self) = tl signs
  /\ List.length (sign_history (fold_left add_sign signs self)) = 10%nat
  /\ (forall s, history_bounded (add_sign self s)).
Proof.
  intros H L. unfold history_bounded in *.
  change history_maxlen with 10%nat in *.
  assert (E : sign_history (fold_left add_sign signs self) = tl signs).
  { rewrite add_sign_history. change history_maxlen with 10%nat.
    rewrite (append_all _ _ _ H), L.
    replace (List.length (sign_history self) + 11 - 10)%nat
      with (List.length (sign_history self) + 1)%nat by lia.
    rewrite skipn_app, (skipn_all2 (sign_history self)) by lia.
    replace (List.length (sign_history self) + 1
             - List.length (sign_history self))%nat with 1%nat by lia.
    destruct signs; reflexivity. }
  split; [exact E|]. split.
  - rewrite E. destruct signs; simpl in *; lia.
  - intros s. apply (append_length 10 _ s H).
Qed.

Lemma history_keeps_last_10_witness :
  sign_history
    (fold_left add_sign
       ["A"; "B"; "C"; "D"; "E"; "F"; "I"; "K"; "L"; "O"; "U"]%string
       (add_sign init "HELLO"))
  = ["B"; "C"; "D"; "E"; "F"; "I"; "K"; "L"; "O"; "U"]%string.
Proof.
  apply (history_keeps_last_10 (add_sign init "HELLO")
           ["A"; "B"; "C"; "D"; "E"; "F"; "I"; "K"; "L"; "O"; "U"]%string).
  - unfold history_bounded, history_maxlen. simpl. lia.
  - reflexivity.
Defined.

End TranscriptAssembler.

(** ** The frame loop and the hold *)

Section FrameLoop.

Import SignLanguageTranslator.
Local Open Scope float_scope.

Variable libm_pow2 : float -> float * errno.
Variable atan2 : float -> float -> float.
Variable draw_landmarks : list SignLanguageRecognizer.Landmark -> exc unit.

(** C6 (amended): a hand that matches no rule is not shown to
    [is_sign_ready]: the session only forgets the displayed sign, and the
    recogniser keeps the tracked sign and the start of its hold.  A frame
    with that hand does the same once the hand is drawn, and raises what
    the drawing raises. *)
Theorem no_match_keeps_hold (self : t) (h : hand) :
  enabled self = true ->
  SignLanguageRecognizer.recognize_sign libm_pow2 atan2 (landmark h)
  = Ok None ->
  process_hand libm_pow2 atan2 self h = Ok (set_current_sign None self)
  /\ update_frame_step libm_pow2 atan2 draw_landmarks self [h]
     = match draw_landmarks (landmark h) with
       | Ok _ => Ok (set_current_sign None self)
       | Raise e => Raise e
       end
  /\ recognizer (set_current_sign None self) = recognizer self.
Proof.
  intros He Hn.
  assert (E : process_hand libm_pow2 atan2 self h
              = Ok (set_current_sign None self)).
  { unfold process_hand. rewrite He, Hn. reflexivity. }
  split; [exact E|]. split; [|reflexivity].
  cbn [update_frame_step for_hands]. unfold hand_iteration.
  destruct (draw_landmarks (landmark h)); cbn [bind]; [|reflexivity].
  rewrite E. reflexivity.
Qed.

(** A frame without a hand leaves the recogniser alone as well. *)
Lemma no_hand_keeps_hold (self : t) :
  exists self',
    update_frame_step libm_pow2 atan2 draw_landmarks self [] = Ok self'
    /\ recognizer self' = recognizer self.
Proof.
  cbn [update_frame_step]. destruct (enabled self); eauto.
Qed.

(** The frame loop keeps the history within its capacity. *)
Lemma process_hand_history_bounded (self self' : t) (h : hand) :
  history_bounded self ->
  process_hand libm_pow2 atan2 self h = Ok self' ->
  history_bounded self'.
Proof.
  intros H. unfold process_hand.
  destruct (enabled self); [|intros [= <-]; exact H].
  destruct (SignLanguageRecognizer.recognize_sign libm_pow2 atan2 (landmark h))
    as [[s|]|]; cbn [bind]; try discriminate; [|intros [= <-]; exact H].
  destruct (truthy (Some s)); [|intros [= <-]; exact H].
  destruct (sign_eqb _ _); cbn [bind].
  1: destruct (py_div _ _); cbn [bind]; try discriminate.
  all: destruct (float_of_int _); cbn [bind]; try discriminate.
  all: destruct (py_int _); cbn [bind]; try discriminate.
  all: destruct (SignLanguageRecognizer.is_sign_ready _ _ _) as [[] r'];
    intros [= <-]; try exact H;
    apply (append_length history_maxlen _ s H).
Qed.

Lemma update_frames_history_bounded (frames : list (list hand)) :
  forall self self',
    history_bounded self ->
    update_frames libm_pow2 atan2 draw_landmarks self frames = Ok self' ->
    history_bounded self'.
Proof.
  assert (Hh : forall hands self self',
             history_bounded self ->
             for_hands libm_pow2 atan2 draw_landmarks self hands = Ok self' ->
             history_bounded self').
  { induction hands as [|h hands IH]; intros self self' H; cbn [for_hands].
    - intros [= <-]. exact H.
    - unfold hand_iteration.
      destruct (draw_landmarks (landmark h)); cbn [bind]; [|discriminate].
      destruct (process_hand libm_pow2 atan2 self h) as [self1|] eqn:E;
        cbn [bind]; [|discriminate].
      apply IH. exact (process_hand_history_bounded _ _ _ H E). }
  induction frames as [|f frames IH]; intros self self' H; cbn [update_frames].
  - intros [= <-]. exact H.
  - destruct (update_frame_step libm_pow2 atan2 draw_landmarks self f)
      as [self1|] eqn:E; cbn [bind]; [|discriminate].
    apply IH. destruct f as [|h hands].
    + cbn [update_frame_step] in E. injection E as <-.
      destruct (enabled self); exact H.
    + exact (Hh _ _ _ H E).
Qed.

(** Called with [None], [is_sign_ready] itself does drop a tracked sign. *)
Lemma is_sign_ready_None (r : SignLanguageRecognizer.t) (now : float) :
  SignLanguageRecognizer.last_sign r <> None ->
  SignLanguageRecognizer.last_sign
    (snd (SignLanguageRecognizer.is_sign_ready r None now)) = None.
Proof.
  intros H. rewrite is_sign_ready_change by congruence. reflexivity.
Qed.

End FrameLoop.

Section FrameLoopExamples.

Import SignLanguageTranslator Fixtures MoreFixtures.
Local Open Scope float_scope.

(** [seen_A] is the session after a frame that shows A at time 0. *)
Example first_frame_seen_A :
  update_frames pow2_rounded atan2_unused draw_hand active
    [frame fist_thumb_side 0] = Ok seen_A.
Proof. reflexivity. Qed.

(** A is displayed and tracked, its hold started at 0, and the hand matches
    no rule: the display is cleared, A is still tracked, and its hold still
    starts at 0. *)
Lemma no_match_keeps_hold_witness :
  SignLanguageRecognizer.last_sign (recognizer seen_A) = Some "A"%string
  /\ current_sign seen_A = Some "A"%string
  /\ SignLanguageRecognizer.recognize_sign pow2_rounded atan2_unused
       two_fingers_gap = Ok None
  /\ process_hand pow2_rounded atan2_unused seen_A (hand_at two_fingers_gap 1)
     = Ok (set_current_sign None seen_A)
  /\ update_frame_step pow2_rounded atan2_unused draw_hand seen_A
       (frame two_fingers_gap 1)
     = Ok (set_current_sign None seen_A)
  /\ current_sign (set_current_sign None seen_A) = None
  /\ SignLanguageRecognizer.last_sign
       (recognizer (set_current_sign None seen_A)) = Some "A"%string
  /\ SignLanguageRecognizer.last_sign_time
       (recognizer (set_current_sign None seen_A)) = 0.
Proof.
  split; [reflexivity|]. split; [reflexivity|]. split; [reflexivity|].
  destruct (no_match_keeps_hold pow2_rounded atan2_unused draw_hand seen_A
              (hand_at two_fingers_gap 1) eq_refl eq_refl) as (Hp & Hf & _).
  split; [exact Hp|]. split; [exact Hf|]. repeat split.
Defined.

(** C6, as stated, fails: A is seen at 0, the hand matches no rule at 1, and
    A is seen again at 1.5.  After the second frame A is still the tracked
    sign, with its hold started at 0, and the third frame confirms A at
    once, half a time unit after it reappeared. *)
Lemma no_match_frame_does_not_reset :
  SignLanguageRecognizer.recognize_sign pow2_rounded atan2_unused
    two_fingers_gap = Ok None
  /\ (exists self,
         update_frames pow2_rounded atan2_unused draw_hand active
           [frame fist_thumb_side 0; frame two_fingers_gap 1] = Ok self
         /\ SignLanguageRecognizer.last_sign (recognizer self)
            = Some "A"%string
         /\ SignLanguageRecognizer.last_sign (recognizer self) <> None
         /\ SignLanguageRecognizer.last_sign_time (recognizer self) = 0)
  /\ (exists self,
         update_frames pow2_rounded atan2_unused draw_hand active
           [frame fist_thumb_side 0; frame two_fingers_gap 1;
            frame fist_thumb_side 1.5] = Ok self
         /\ current_text self = "A"%string
         /\ total_signs self = 1%Z).
Proof.
  split; [reflexivity|]. split.
  - eexists. split; [reflexivity|]. repeat split. discriminate.
  - eexists. split; [reflexivity|]. split; reflexivity.
Qed.

(** Had the hold been restarted when A reappeared at 1.5, the frame at 1.5
    would not confirm: a session that first sees A at 1.5 has an empty
    text. *)
Example fresh_hold_does_not_confirm :
  exists self,
    update_frames pow2_rounded atan2_unused draw_hand active
      [frame fist_thumb_side 1.5] = Ok self
    /\ current_text self = ""%string.
Proof. eexists. split; reflexivity. Qed.

End FrameLoopExamples.

(** * Further properties *)

(** ** Distances and angles *)

Section DistanceAngle.

Import SignLanguageRecognizer.
Local Open Scope float_scope.

(** A finite float is a zero or a finite number of the specification. *)
Lemma is_finite_Prim2SF (a : float) :
  is_finite a = true ->
  (exists s, Prim2SF a = S754_zero s)
  \/ (exists s m e, Prim2SF a = S754_finite s m e).
Proof.
  unfold is_finite, is_nan, is_infinity.
  rewrite !eqb_spec, abs_spec.
  destruct (Prim2SF a) as [s|s| |s m e]; eauto.
  - destruct s; discriminate.
  - discriminate.
Qed.

Lemma sub_diag_finite (a : float) : is_finite a = true -> a - a = 0.
Proof.
  intros H. apply Prim2SF_inj. rewrite sub_spec.
  destruct (is_finite_Prim2SF a H) as [[s ->] | (s & m & e & ->)].
  - destruct s; reflexivity.
  - unfold SF64sub, SFsub. rewrite Z.sub_diag. reflexivity.
Qed.

(** X2: the distance from a landmark with finite coordinates to itself is
    zero, whatever the C library computes. *)
Theorem get_distance_self (libm_pow2 : float -> float * errno)
        (p : Landmark) :
  is_finite (x p) = true -> is_finite (y p) = true ->
  is_finite (z p) = true ->
  get_distance libm_pow2 p p = Ok 0.
Proof.
  intros Hx Hy Hz. unfold get_distance.
  rewrite (sub_diag_finite _ Hx), (sub_diag_finite _ Hy),
    (sub_diag_finite _ Hz).
  reflexivity.
Qed.

(** X3: a distance that [get_distance] returns is never below zero (it may
    be NaN or infinite), whatever the C library computes. *)
Theorem get_distance_not_negative (libm_pow2 : float -> float * errno)
        (p1 p2 : Landmark) (d : float) :
  get_distance libm_pow2 p1 p2 = Ok d ->
  (d <? 0) = false.
Proof.
  unfold get_distance.
  destruct (float_pow2 libm_pow2 (x p1 - x p2)) as [dx|]; cbn [bind];
    [|discriminate].
  destruct (float_pow2 libm_pow2 (y p1 - y p2)) as [dy|]; cbn [bind];
    [|discriminate].
  destruct (float_pow2 libm_pow2 (z p1 - z p2)) as [dz|]; cbn [bind];
    [|discriminate].
  unfold math_sqrt.
  destruct (is_nan (sqrt (dx + dy + dz)) && negb (is_nan (dx + dy + dz)));
    [discriminate|].
  destruct (is_infinity (sqrt (dx + dy + dz)) && is_finite (dx + dy + dz));
    [discriminate|].
  intros [= <-]. apply sqrt_not_below_zero.
Qed.

Lemma SF64mul_opp_l a b : SF64mul (SFopp a) b = SFopp (SF64mul a b).
Proof.
  destruct a as [sa|sa| |sa ma ea], b as [sb|sb| |sb mb eb];
    try reflexivity; try (destruct sa, sb; reflexivity).
  unfold SF64mul, SFmul, SFopp.
  replace (xorb (negb sa) sb) with (negb (xorb sa sb))
    by (destruct sa, sb; reflexivity).
  apply binary_round_aux_negb.
Qed.

Lemma SF64div_opp_l a b : SF64div (SFopp a) b = SFopp (SF64div a b).
Proof.
  destruct a as [sa|sa| |sa ma ea], b as [sb|sb| |sb mb eb];
    try reflexivity; try (destruct sa, sb; reflexivity).
  unfold SF64div, SFdiv, SFopp.
  destruct (SFdiv_core_binary prec emax (Z.pos ma) ea (Z.pos mb) eb)
    as [[mz ez] lz].
  replace (xorb (negb sa) sb) with (negb (xorb sa sb))
    by (destruct sa, sb; reflexivity).
  apply binary_round_aux_negb.
Qed.

(** The degrees of [get_angle] do not depend on the order of the two
    bearings. *)
Lemma abs_degrees_swap (u v : float) :
  abs ((u - v) * 180 / pi) = abs ((v - u) * 180 / pi).
Proof.
  apply Prim2SF_inj. rewrite !abs_spec, !div_spec, !mul_spec, !sub_spec.
  destruct (SF64sub_swap (Prim2SF v) (Prim2SF u)) as [H | H]; rewrite H.
  - rewrite SF64mul_opp_l, SF64div_opp_l, SFabs_opp. reflexivity.
  - reflexivity.
Qed.

(** X4: whatever [math.atan2] computes, the angle at [p2] between [p1] and
    [p3] is the angle at [p2] between [p3] and [p1]. *)
Theorem get_angle_swap (atan2 : float -> float -> float)
        (p1 p2 p3 : Landmark) :
  get_angle atan2 p1 p2 p3 = get_angle atan2 p3 p2 p1.
Proof.
  unfold get_angle.
  rewrite (abs_degrees_swap (atan2 (y p3 - y p2) (x p3 - x p2))
             (atan2 (y p1 - y p2) (x p1 - x p2))).
  reflexivity.
Qed.

End DistanceAngle.

(** ** The hold, call after call *)

Section HoldSequences.

Import SignLanguageRecognizer.
Local Open Scope float_scope.

(** After a call the tracked sign is the sign of the call, and the settings
    are as before. *)
Lemma is_sign_ready_tracks (self : t) (sign : option string) (now : float) :
  last_sign (snd (is_sign_ready self sign now)) = sign
  /\ cooldown (snd (is_sign_ready self sign now)) = cooldown self
  /\ (last_sign_time (snd (is_sign_ready self sign now)) = now
      \/ last_sign_time (snd (is_sign_ready self sign now))
         = last_sign_time self).
Proof.
  unfold is_sign_ready.
  destruct (sign_eqb sign (last_sign self)) eqn:E; cbn [negb].
  - apply sign_eqb_eq in E.
    destruct (cooldown self <=? now - last_sign_time self); cbn; auto.
  - cbn. auto.
Qed.

(** X12: of two calls in a row, the second confirms only the sign of the
    first, and only when the cooldown has elapsed since the time of the
    first call or since the start of the hold the first call found. *)
Theorem confirm_needs_same_sign_twice (self : t) (s1 s2 : option string)
        (t1 t2 : float) :
  fst (is_sign_ready (snd (is_sign_ready self s1 t1)) s2 t2) = true ->
  s2 = s1
  /\ ((cooldown self <=? t2 - t1) = true
      \/ (cooldown self <=? t2 - last_sign_time self) = true).
Proof.
  intros H. apply is_sign_ready_true in H. destruct H as (Hs & Hc & _).
  destruct (is_sign_ready_tracks self s1 t1) as (Hl & Hk & Ht).
  rewrite Hl in Hs. rewrite Hk in Hc. split; [exact Hs|].
  destruct Ht as [Ht | Ht]; rewrite Ht in Hc; auto.
Qed.

Lemma confirm_needs_same_sign_twice_witness :
  fst (is_sign_ready (snd (is_sign_ready init (Some "A"%string) 0))
         (Some "A"%string) 2) = true
  /\ Some "A"%string = Some "A"%string.
Proof.
  split; [reflexivity|].
  apply (confirm_needs_same_sign_twice init (Some "A"%string)
           (Some "A"%string) 0 2).
  reflexivity.
Defined.

End HoldSequences.

(** ** The text *)

Section TextOperations.

Import SignLanguageTranslator.

Lemma drop_last_app (s : string) (c : Ascii.ascii) :
  drop_last (s ++ String c EmptyString) = s.
Proof.
  induction s as [|a s IH]; [reflexivity|].
  cbn [String.append drop_last]. rewrite IH.
  destruct s; reflexivity.
Qed.

Lemma backspace_fields (self : t) :
  current_text (backspace self) = drop_last (current_text self)
  /\ total_signs (backspace self) = total_signs self
  /\ sign_history (backspace self) = sign_history self
  /\ recognizer (backspace self) = recognizer self.
Proof.
  unfold backspace. destruct (current_text self) eqn:E; cbn; auto.
Qed.

(** X18: a backspace right after [add_space] gives back the session as it
    was. *)
Theorem backspace_add_space (self : t) : backspace (add_space self) = self.
Proof.
  destruct self as [rn en r text wb cs hp n h].
  unfold backspace, add_space. cbn.
  destruct (text ++ " ")%string eqn:E.
  - destruct text; discriminate.
  - rewrite <- E, drop_last_app. reflexivity.
Qed.

Lemma erase_fields (n : nat) (self : t) :
  total_signs (Nat.iter n backspace self) = total_signs self
  /\ sign_history (Nat.iter n backspace self) = sign_history self.
Proof.
  induction n as [|n IH]; [cbn; auto|]. rewrite Nat.iter_succ.
  destruct (backspace_fields (Nat.iter n backspace self)) as (_ & -> & -> & _).
  exact IH.
Qed.

Lemma erase_text (sign : string) :
  forall (self : t) (text : string),
    current_text self = (text ++ sign)%string ->
    current_text (Nat.iter (String.length sign) backspace self) = text.
Proof.
  induction sign as [|c sign IH]; intros self text H.
  - cbn. rewrite H. clear. induction text; cbn; congruence.
  - cbn [String.length]. rewrite Nat.iter_succ.
    destruct (backspace_fields (Nat.iter (String.length sign) backspace self))
      as (-> & _).
    rewrite (IH self (text ++ String c EmptyString)%string).
    + apply drop_last_app.
    + rewrite H. clear. induction text; cbn; congruence.
Qed.

(** X19: erasing a sign takes as many backspaces as it has letters; the text
    is then as before the sign was added, while the sign counter still
    counts it and the history still holds it. *)
Theorem erase_sign (self : t) (sign : string) :
  let erased := Nat.iter (String.length sign) backspace (add_sign self sign) in
  current_text erased = current_text self
  /\ total_signs erased = (total_signs self + 1)%Z
  /\ sign_history erased
     = Deque.append history_maxlen (sign_history self) sign.
Proof.
  cbn zeta. split.
  - apply erase_text. reflexivity.
  - destruct (erase_fields (String.length sign) (add_sign self sign))
      as (-> & ->).
    split; reflexivity.
Qed.

(** X17: adding a run of signs appends their letters to the text in order,
    with nothing between them, and adds their number to the sign counter. *)
Theorem add_signs_text (self : t) (signs : list string) :
  current_text (fold_left add_sign signs self)
  = (current_text self ++ String.concat "" signs)%string
  /\ total_signs (fold_left add_sign signs self)
     = (total_signs self + Z.of_nat (List.length signs))%Z.
Proof.
  assert (A : forall a b c : string,
             ((a ++ b) ++ c = a ++ (b ++ c))%string).
  { induction a; intros; cbn; congruence. }
  assert (N : forall a : string, (a ++ "")%string = a).
  { induction a; cbn; congruence. }
  revert self. induction signs as [|s signs IH]; intros self.
  - cbn. rewrite N. split; [reflexivity | lia].
  - cbn [fold_left]. destruct (IH (add_sign self s)) as (-> & ->).
    cbn [add_sign current_text total_signs set_total_signs set_sign_history
         set_current_text List.length].
    split; [|lia].
    rewrite A. f_equal. destruct signs as [|s' signs]; cbn.
    + rewrite N. reflexivity.
    + reflexivity.
Qed.

(** X20: once at least 10 signs have been added, the history is the last
    10 of them, whatever it held before; in general its length is the
    smaller of 10 and the number of signs it has been given. *)
Theorem history_is_last_10 (self : t) (signs : list string) :
  history_bounded self ->
  ((10 <= List.length signs)%nat ->
   sign_history (fold_left add_sign signs self)
   = skipn (List.length signs - 10) signs)
  /\ List.length (sign_history (fold_left add_sign signs self))
     = Nat.min 10 (List.length (sign_history self) + List.length signs).
Proof.
  intros H. unfold history_bounded in H.
  change history_maxlen with 10%nat in H.
  rewrite add_sign_history. change history_maxlen with 10%nat.
  rewrite (append_all _ _ _ H). split.
  - intros L. rewrite skipn_app.
    rewrite (skipn_all2 (sign_history self)) by lia.
    cbn [app]. f_equal. lia.
  - rewrite length_skipn, length_app. lia.
Qed.

Lemma history_is_last_10_witness :
  sign_history
    (fold_left add_sign
       ["A"; "B"; "C"; "D"; "E"; "F"; "I"; "K"; "L"; "O"; "U"; "V"]%string
       (add_sign init "HELLO"))
  = ["C"; "D"; "E"; "F"; "I"; "K"; "L"; "O"; "U"; "V"]%string.
Proof.
  apply (history_is_last_10 (add_sign init "HELLO")
           ["A"; "B"; "C"; "D"; "E"; "F"; "I"; "K"; "L"; "O"; "U"; "V"]%string).
  - unfold history_bounded, history_maxlen. simpl. lia.
  - simpl. lia.
Defined.

End TextOperations.

(** ** The word counter *)

Section WordCounter.

Import SignLanguageTranslator.

(** A run without white space extends the word being read, or starts one. *)
Lemma split_from_word (s : string) :
  no_space s = true ->
  forall w : string, split_from s (Some w) = [(w ++ s)%string].
Proof.
  induction s as [|c s IH]; intros H w.
  - cbn. f_equal. clear. induction w; cbn; congruence.
  - cbn [no_space] in H. apply andb_true_iff in H. destruct H as [Hc Hs].
    apply negb_true_iff in Hc. cbn [split_from]. rewrite Hc, (IH Hs).
    f_equal. clear. induction w; cbn; congruence.
Qed.

Lemma split_from_sign (s : string) :
  no_space s = true -> s <> EmptyString ->
  forall word, List.length (split_from s word) = 1%nat.
Proof.
  intros H Hn word. destruct s as [|c s]; [contradiction|].
  cbn [no_space] in H. apply andb_true_iff in H. destruct H as [Hc Hs].
  apply negb_true_iff in Hc. cbn [split_from]. rewrite Hc.
  rewrite (split_from_word s Hs). reflexivity.
Qed.

Lemma no_space_app (a b : string) :
  no_space a = true -> no_space b = true -> no_space (a ++ b) = true.
Proof.
  intros Ha Hb. induction a as [|c a IH]; [exact Hb|].
  cbn [no_space String.append] in *.
  apply andb_true_iff in Ha. destruct Ha as [-> Ha]. exact (IH Ha).
Qed.

Lemma app_assoc_string (a b c : string) :
  ((a ++ b) ++ c = a ++ (b ++ c))%string.
Proof. induction a; cbn; congruence. Qed.

(** A space at the end closes the word being read and opens none. *)
Lemma split_from_space (text : string) :
  forall word,
    List.length (split_from (text ++ " ") word)
    = List.length (split_from text word).
Proof.
  induction text as [|c text IH]; intros word.
  - destruct word; reflexivity.
  - cbn [String.append split_from].
    destruct (isspace c); [destruct word|]; cbn [List.length];
      rewrite ?IH; reflexivity.
Qed.

(** A sign after a space is one more word. *)
Lemma split_from_space_sign (sign : string) :
  no_space sign = true -> sign <> EmptyString ->
  forall text word,
    List.length (split_from ((text ++ " ") ++ sign) word)
    = S (List.length (split_from text word)).
Proof.
  intros H Hn. induction text as [|c text IH]; intros word.
  - cbn [String.append split_from].
    change (isspace (Ascii.Ascii false false false false false true
                       false false)) with true.
    cbn iota.
    destruct word; cbn [List.length];
      rewrite (split_from_sign sign H Hn); reflexivity.
  - cbn [String.append split_from].
    destruct (isspace c); [destruct word|]; cbn [List.length];
      rewrite ?IH; reflexivity.
Qed.

(** A sign right after a sign is the same word. *)
Lemma split_from_sign_sign (s1 s2 : string) :
  no_space s1 = true -> s1 <> EmptyString -> no_space s2 = true ->
  forall text word,
    List.length (split_from ((text ++ s1) ++ s2) word)
    = List.length (split_from (text ++ s1) word).
Proof.
  intros H1 Hn H2. induction text as [|c text IH]; intros word.
  - cbn [String.append].
    rewrite (split_from_sign s1 H1 Hn).
    apply split_from_sign.
    + apply no_space_app; assumption.
    + destruct s1; [contradiction | discriminate].
  - cbn [String.append split_from].
    destruct (isspace c); [destruct word|]; cbn [List.length];
      rewrite ?IH; reflexivity.
Qed.

(** X21: the word counter counts the runs of signs that spaces separate:
    [add_space] leaves it as it is, a sign added right after a space counts
    one more word, and a sign added right after a sign counts none. *)
Theorem word_count_runs (self : t) (s1 s2 : string) :
  no_space s1 = true -> s1 <> EmptyString ->
  no_space s2 = true -> s2 <> EmptyString ->
  word_count (current_text (add_space self))
  = word_count (current_text self)
  /\ word_count (current_text (add_sign (add_space self) s1))
     = S (word_count (current_text self))
  /\ word_count (current_text (add_sign (add_sign self s1) s2))
     = word_count (current_text (add_sign self s1))
  /\ word_count (current_text (add_sign init s1)) = 1%nat.
Proof.
  intros H1 N1 H2 N2. unfold word_count, split. cbn.
  repeat split.
  - apply split_from_space.
  - apply split_from_space_sign; assumption.
  - apply split_from_sign_sign; assumption.
  - apply split_from_sign; assumption.
Qed.

Lemma word_count_runs_witness :
  word_count (current_text (add_sign (add_space (add_sign (add_sign init "A") "B")) "C"))
  = S (word_count (current_text (add_sign (add_sign init "A") "B"))).
Proof.
  apply (word_count_runs (add_sign (add_sign init "A") "B") "C" "A");
    (reflexivity || discriminate).
Defined.

(** The labels that the recogniser returns are words of their own. *)
Lemma returned_signs_words :
  forallb (fun s => no_space s && negb (String.eqb s "")) returned_signs
  = true.
Proof. reflexivity. Qed.

End WordCounter.

(** ** The frame loop *)

Section FrameLoopEffects.

Import SignLanguageTranslator.
Local Open Scope float_scope.

Variable libm_pow2 : float -> float * errno.
Variable atan2 : float -> float -> float.
Variable draw_landmarks : list SignLanguageRecognizer.Landmark -> exc unit.

(** X13: a hand changes the text in one way only: it appends the label that
    [recognize_sign] returned for it, the sign counter going up by one; that
    label is not empty and was the tracked sign before the frame, and
    recognition is on. *)
Theorem process_hand_appends (self self' : t) (h : hand) :
  process_hand libm_pow2 atan2 self h = Ok self' ->
  (current_text self' = current_text self
   /\ total_signs self' = total_signs self
   /\ sign_history self' = sign_history self)
  \/ (exists s,
         SignLanguageRecognizer.recognize_sign libm_pow2 atan2 (landmark h)
         = Ok (Some s)
         /\ s <> EmptyString
         /\ enabled self = true
         /\ SignLanguageRecognizer.last_sign (recognizer self) = Some s
         /\ current_text self' = (current_text self ++ s)%string
         /\ total_signs self' = (total_signs self + 1)%Z).
Proof.
  unfold process_hand.
  destruct (enabled self) eqn:En; [|intros [= <-]; auto].
  destruct (SignLanguageRecognizer.recognize_sign libm_pow2 atan2
              (landmark h))
    as [[s|]|]; cbn [bind]; try discriminate; [|intros [= <-]; auto].
  destruct s as [|c s]; cbn [truthy]; [intros [= <-]; auto|].
  destruct (sign_eqb _ _) eqn:Es; cbn [bind].
  - destruct (py_div _ _); cbn [bind]; [|discriminate].
    destruct (float_of_int _); cbn [bind]; [|discriminate].
    destruct (py_int _); cbn [bind]; [|discriminate].
    destruct (SignLanguageRecognizer.is_sign_ready _ _ _) as [[] r'];
      intros [= <-]; [right | left; auto].
    apply sign_eqb_eq in Es. cbn in Es.
    exists (String c s). repeat split; auto. discriminate.
  - destruct (float_of_int _); cbn [bind]; [|discriminate].
    destruct (py_int _); cbn [bind]; [|discriminate].
    unfold SignLanguageRecognizer.is_sign_ready.
    cbn [recognizer set_current_sign set_hold_progress] in *.
    rewrite Es. cbn [negb]. intros [= <-]. left. auto.
Qed.







(** X15: with recognition on, a hand of fewer than 21 landmarks raises: the
    exception of [draw_landmarks] when the drawing raises, and [IndexError]
    from [recognize_sign] when the drawing returns. *)
Theorem short_hand_raises (self : t) (h : hand) :
  enabled self = true ->
  (List.length (landmark h) < 21)%nat ->
  hand_iteration libm_pow2 atan2 draw_landmarks self h
  = match draw_landmarks (landmark h) with
    | Ok _ => Raise IndexError
    | Raise e => Raise e
    end.
Proof.
  intros He Hl. unfold hand_iteration, process_hand.
  destruct (draw_landmarks (landmark h)); cbn [bind]; [|reflexivity].
  rewrite He, (recognize_sign_IndexError libm_pow2 atan2 _ Hl). reflexivity.
Qed.

(** X16: with a cooldown of zero, the hand that shows the tracked sign again
    raises [ZeroDivisionError]: the progress of the hold divides by the
    cooldown before [is_sign_ready] is asked. *)
Theorem zero_cooldown_raises (self : t) (h : hand) (s : string) :
  enabled self = true ->
  SignLanguageRecognizer.recognize_sign libm_pow2 atan2 (landmark h)
  = Ok (Some s) ->
  s <> EmptyString ->
  SignLanguageRecognizer.last_sign (recognizer self) = Some s ->
  (SignLanguageRecognizer.cooldown (recognizer self) =? 0) = true ->
  process_hand libm_pow2 atan2 self h = Raise ZeroDivisionError.
Proof.
  intros He Hr Hs Hl Hc. unfold process_hand. rewrite He, Hr. cbn [bind].
  destruct s as [|c s]; [contradiction|]. cbn [truthy].
  cbn [recognizer set_current_sign]. rewrite Hl, sign_eqb_refl.
  unfold py_div. rewrite Hc. reflexivity.
Qed.

Lemma ltb_asym (a b : float) : (a <? b) = true -> (b <? a) = false.
Proof.
  intros H. apply leb_not_ltb. rewrite leb_spec. rewrite ltb_spec in H.
  unfold SFleb, SFltb in *.
  destruct (SFcompare (Prim2SF a) (Prim2SF b)) as [[]|];
    (reflexivity || discriminate).
Qed.

Lemma py_min_100 (v : float) : (100 <? py_min 100 v) = false.
Proof.
  unfold py_min. destruct (v <? 100) eqn:E.
  - exact (ltb_asym _ _ E).
  - reflexivity.
Qed.

(** X23: the progress of the hold never exceeds 100: no frame takes it
    above. *)
Theorem hold_progress_at_most_100 (frames : list (list hand)) :
  forall self self',
    (100 <? hold_progress self) = false ->
    update_frames libm_pow2 atan2 draw_landmarks self frames = Ok self' ->
    (100 <? hold_progress self') = false.
Proof.
  assert (Hp : forall self self' h,
             (100 <? hold_progress self) = false ->
             process_hand libm_pow2 atan2 self h = Ok self' ->
             (100 <? hold_progress self') = false).
  { intros self self' h H. unfold process_hand.
    destruct (enabled self); [|intros [= <-]; exact H].
    destruct (SignLanguageRecognizer.recognize_sign libm_pow2 atan2
                (landmark h))
      as [[s|]|]; cbn [bind]; try discriminate; [|intros [= <-]; exact H].
    destruct (truthy (Some s)); [|intros [= <-]; exact H].
    destruct (sign_eqb _ _); cbn [bind].
    1: destruct (py_div _ _); cbn [bind]; try discriminate.
    all: destruct (float_of_int _); cbn [bind]; try discriminate.
    all: destruct (py_int _); cbn [bind]; try discriminate.
    all: destruct (SignLanguageRecognizer.is_sign_ready _ _ _) as [[] r'];
      intros [= <-]; cbn; try apply py_min_100; reflexivity. }
  assert (Hh : forall hands self self',
             (100 <? hold_progress self) = false ->
             for_hands libm_pow2 atan2 draw_landmarks self hands = Ok self' ->
             (100 <? hold_progress self') = false).
  { induction hands as [|h hands IH]; intros self self' H; cbn [for_hands].
    - intros [= <-]. exact H.
    - unfold hand_iteration.
      destruct (draw_landmarks (landmark h)); cbn [bind]; [|discriminate].
      destruct (process_hand libm_pow2 atan2 self h) as [self1|] eqn:E;
        cbn [bind]; [|discriminate].
      apply IH. exact (Hp _ _ _ H E). }
  induction frames as [|f frames IH]; intros self self' H; cbn [update_frames].
  - intros [= <-]. exact H.
  - destruct (update_frame_step libm_pow2 atan2 draw_landmarks self f)
      as [self1|] eqn:E; cbn [bind]; [|discriminate].
    apply IH. destruct f as [|h hands].
    + cbn [update_frame_step] in E. injection E as <-.
      destruct (enabled self); exact H.
    + exact (Hh _ _ _ H E).
Qed.

End FrameLoopEffects.

(** ** Examples of the further properties *)

Section FurtherExamples.

Import SignLanguageRecognizer SignLanguageTranslator Fixtures MoreFixtures.
Local Open Scope float_scope.

Lemma get_distance_self_witness : get_distance pow2_rounded joint joint = Ok 0.
Proof. apply (get_distance_self pow2_rounded joint); reflexivity. Defined.

(** The thumb and index tips of the curved hand are about 0.11 apart. *)
Lemma get_distance_not_negative_witness :
  exists d,
    get_distance pow2_rounded (mkLandmark 0.35 0.35 0) (mkLandmark 0.45 0.3 0)
    = Ok d
    /\ (0.1 <? d) = true
    /\ (d <? 0) = false.
Proof.
  eexists. split; [reflexivity|]. split; [reflexivity|].
  apply (get_distance_not_negative pow2_rounded (mkLandmark 0.35 0.35 0)
           (mkLandmark 0.45 0.3 0)).
  reflexivity.
Defined.

Lemma recognize_sign_range_witness :
  recognize_sign pow2_rounded atan2_unused fist = Ok (Some "E"%string)
  /\ In "E"%string returned_signs /\ "E"%string <> "YES"%string.
Proof.
  split; [reflexivity|].
  apply (recognize_sign_range pow2_rounded atan2_unused fist "E").
  reflexivity.
Defined.

Lemma recognize_sign_reads_only_witness :
  nth_error fist 0 <> nth_error fist_moved_wrist 0
  /\ recognize_sign pow2_rounded atan2_unused fist
     = recognize_sign pow2_rounded atan2_unused fist_moved_wrist.
Proof.
  split; [discriminate|].
  apply (recognize_sign_reads_only pow2_rounded atan2_unused fist
           fist_moved_wrist).
  - simpl. lia.
  - simpl. lia.
  - intros i Hi. unfold read_indices in Hi. cbn [In] in Hi.
    repeat (destruct Hi as [<- | Hi]; [reflexivity|]). contradiction.
Defined.

Lemma four_fingers_B_witness :
  recognize_sign pow2_rounded atan2_unused flat_hand = Ok (Some "B"%string).
Proof.
  eapply (four_fingers_B pow2_rounded atan2_unused flat_hand); reflexivity.
Defined.

Lemma open_hand_C_F_HELLO_witness :
  recognize_sign pow2_rounded atan2_unused open_hand
  = Ok (Some "HELLO"%string).
Proof.
  assert (E : exists d,
             thumb_index_dist pow2_rounded open_hand = Ok d
             /\ (if (0.1 <? d) && (d <? 0.25) then "C"%string
                 else if d <? 0.08 then "F"%string else "HELLO"%string)
                = "HELLO"%string).
  { eexists. split; reflexivity. }
  destruct E as (d & E & <-).
  eapply (open_hand_C_F_HELLO pow2_rounded atan2_unused open_hand d);
    (exact E || reflexivity).
Defined.

Lemma thumb_only_A_GOOD_witness :
  recognize_sign pow2_rounded atan2_unused fist_thumb_side
  = Ok (Some "A"%string).
Proof.
  eapply (thumb_only_A_GOOD pow2_rounded atan2_unused fist_thumb_side
            (mkLandmark 0.4 0.6 0) (mkLandmark 0.5 0.55 0)); reflexivity.
Defined.

Lemma thumb_index_D_L_HELP_witness :
  recognize_sign pow2_rounded atan2_unused thumb_and_index
  = Ok (Some "L"%string)
  \/ recognize_sign pow2_rounded atan2_unused thumb_and_index
     = Ok (Some "HELP"%string).
Proof.
  assert (E : exists dm,
             thumb_middle_dist pow2_rounded thumb_and_index = Ok dm
             /\ (dm <? 0.08) = false).
  { eexists. split; reflexivity. }
  destruct E as (dm & E & K).
  eapply (thumb_index_D_L_HELP pow2_rounded atan2_unused thumb_and_index
            _ dm); (exact E || exact K || reflexivity).
Defined.

(** A has been tracked since 0 and is seen again at 2: the frame appends
    it. *)
Lemma process_hand_appends_witness :
  exists self',
    process_hand pow2_rounded atan2_unused tracking_A
      (hand_at fist_thumb_side 2)
    = Ok self'
    /\ current_text self' = "A"%string
    /\ ((current_text self' = current_text tracking_A
         /\ total_signs self' = total_signs tracking_A
         /\ sign_history self' = sign_history tracking_A)
        \/ (exists s,
               recognize_sign pow2_rounded atan2_unused fist_thumb_side
               = Ok (Some s)
               /\ s <> EmptyString
               /\ enabled tracking_A = true
               /\ last_sign (recognizer tracking_A) = Some s
               /\ current_text self'
                  = (current_text tracking_A ++ s)%string
               /\ total_signs self' = (total_signs tracking_A + 1)%Z)).
Proof.
  eexists. split; [reflexivity|]. split; [reflexivity|].
  apply (process_hand_appends pow2_rounded atan2_unused tracking_A _
           (hand_at fist_thumb_side 2)).
  reflexivity.
Defined.


Lemma short_hand_raises_witness :
  hand_iteration pow2_rounded atan2_unused (fun _ => Ok tt) active
    (hand_at short_sequence 0)
  = Raise IndexError
  /\ hand_iteration pow2_rounded atan2_unused draw_hand active
       (hand_at short_sequence 0)
     = Raise ValueError.
Proof.
  split.
  - apply (short_hand_raises pow2_rounded atan2_unused (fun _ => Ok tt)
             active (hand_at short_sequence 0)).
    + reflexivity.
    + simpl. lia.
  - apply (short_hand_raises pow2_rounded atan2_unused draw_hand active
             (hand_at short_sequence 0)).
    + reflexivity.
    + simpl. lia.
Defined.

Lemma zero_cooldown_raises_witness :
  process_hand pow2_rounded atan2_unused zero_cooldown (hand_at fist 1)
  = Raise ZeroDivisionError.
Proof.
  apply (zero_cooldown_raises pow2_rounded atan2_unused zero_cooldown
           (hand_at fist 1) "E"); (reflexivity || discriminate).
Defined.

Lemma hold_progress_at_most_100_witness :
  exists self,
    update_frames pow2_rounded atan2_unused draw_hand active
      [frame fist_thumb_side 0; frame fist_thumb_side 9] = Ok self
    /\ hold_progress self = 100
    /\ (100 <? hold_progress self) = false.
Proof.
  eexists. split; [reflexivity|]. split; [reflexivity|].
  apply (hold_progress_at_most_100 pow2_rounded atan2_unused draw_hand
           [frame fist_thumb_side 0; frame fist_thumb_side 9] active);
    reflexivity.
Defined.

End FurtherExamples.
